(** * landslideml.model.MlModel: a shallow embedding

    The class [MlModel] of [landslideml/model.py] wraps three
    scikit-learn classifiers.  Its own code is input validation,
    bookkeeping of the keyword arguments and forwarding to pandas and
    scikit-learn.  The embedding follows that split:

    - Python values, exceptions and dictionaries are modelled concretely,
      floats as binary64 numbers;
    - of pandas and scikit-learn, the parts whose behaviour is fixed by
      their documentation are written out: indexing a frame by labels,
      the keyword check of a constructor call, the sizes and the seeding
      of [train_test_split];
    - the CSV parser, the random number generator, what the estimators
      learn and predict, and the report are the fields of the classes
      [Sklearn] and [Storage]; every property of them a theorem relies
      on is a named law that appears among its hypotheses;
    - methods are state transformers over the instance and the world,
      and a raised exception keeps the mutations made before it;
    - the output recorded is the output of model.py itself, its calls of
      [warnings.warn] and [print]; warnings that pandas or scikit-learn
      emit on their own are outside the model, and no statement below
      speaks of them. *)

From Stdlib Require Import ZArith Lia.
From Stdlib Require Import Floats.SpecFloat.
From Stdlib Require Import Strings.Ascii.
From stdpp Require Import base option list strings gmap.

Local Open Scope Z_scope.
Set Warnings "-register-all".

(** ** Python floats (binary64) *)

Definition prec : Z := 53.
Definition emax : Z := 1024.

Abbreviation float := spec_float.

Definition float_zero : float := S754_zero false.
Definition float_one : float := SFone prec emax.

(** [float(n)] for an integer [n], rounded to nearest even. *)
Definition float_of_Z (n : Z) : float := binary_normalize prec emax n 0 false.

Definition float_mul (x y : float) : float := SFmul prec emax x y.
Definition float_div (x y : float) : float := SFdiv prec emax x y.

(** [x <= y] and [x < y]: both are false when an operand is NaN. *)
Definition float_le (x y : float) : bool := SFleb x y.
Definition float_lt (x y : float) : bool := SFltb x y.

(** The exact value of a finite float as a fraction [num / den], [0 < den]. *)
Definition float_ratio (x : float) : option (Z * Z) :=
  match x with
  | S754_zero _ => Some (0, 1)
  | S754_finite s m e =>
      let v := cond_Zopp s (Z.pos m) in
      if 0 <=? e then Some (v * 2 ^ e, 1) else Some (v, 2 ^ (- e))
  | S754_infinity _ | S754_nan => None
  end.

(** Ceiling of [num / den] for [0 < den]. *)
Definition ceil_ratio (q : Z * Z) : Z := - ((- q.1) `div` q.2).

(** ** Python values and exceptions *)

Inductive exn : Type :=
| ValueError (msg : string)
| TypeError (msg : string)
| KeyError (key : string)
| FileNotFoundError (msg : string)
| OverflowError (msg : string)
| NotFittedError (msg : string)
| ParserError (msg : string).

Inductive outcome (A : Type) : Type :=
| Returns (a : A)
| Raises (e : exn).
Arguments Returns {A} a.
Arguments Raises {A} e.

Inductive PyVal : Type :=
| PyNone
| PyBool (b : bool)
| PyInt (n : Z)
| PyFloat (x : float)
| PyStr (s : string)
| PyList (l : list PyVal)
| PyTuple (l : list PyVal)
| PyDict (d : list (string * PyVal)).

(** A dictionary with string keys, in insertion order, keys unique. *)
Abbreviation dict := (list (string * PyVal)).

Definition dict_keys (d : dict) : list string := d.*1.

Fixpoint dict_get (k : string) (d : dict) : option PyVal :=
  match d with
  | [] => None
  | (k', v) :: d' => if String.eqb k k' then Some v else dict_get k d'
  end.

(** [d[k] = v]: overwrite in place, or append a new key. *)
Fixpoint dict_set (k : string) (v : PyVal) (d : dict) : dict :=
  match d with
  | [] => [(k, v)]
  | (k', v') :: d' =>
      if String.eqb k k' then (k, v) :: d' else (k', v') :: dict_set k v d'
  end.

(** [d.update(other)]. *)
Definition dict_update (d other : dict) : dict :=
  fold_left (fun acc kv => dict_set kv.1 kv.2 acc) other d.

(** [k in keys] for a list of strings. *)
Definition str_in (k : string) (keys : list string) : bool :=
  existsb (String.eqb k) keys.

(** [sep.join(l)]. *)
Fixpoint join (sep : string) (l : list string) : string :=
  match l with
  | [] => EmptyString
  | [s] => s
  | s :: l' => s +:+ sep +:+ join sep l'
  end.

Definition isinstance_str (v : PyVal) : bool :=
  match v with PyStr _ => true | _ => false end.

Definition isinstance_list (v : PyVal) : bool :=
  match v with PyList _ => true | _ => false end.

(** [v is True]. *)
Definition is_True (v : PyVal) : bool :=
  match v with PyBool true => true | _ => false end.

(** [v == s] for a string [s]: only an equal string compares equal. *)
Definition eq_str (v : PyVal) (s : string) : bool :=
  match v with PyStr s' => String.eqb s' s | _ => false end.

(** [math.ceil(x)]. *)
Definition math_ceil (x : float) : outcome Z :=
  match float_ratio x with
  | Some q => Returns (ceil_ratio q)
  | None =>
      match x with
      | S754_nan => Raises (ValueError "cannot convert float NaN to integer")
      | _ => Raises (OverflowError "cannot convert float infinity to integer")
      end
  end.

(** ** pandas: frames and columns *)

Record DataFrame : Type := {
  columns : list string;
  rows : list (list PyVal)
}.

Abbreviation Series := (list PyVal).

Fixpoint col_index (name : string) (cols : list string) : option nat :=
  match cols with
  | [] => None
  | c :: cols' =>
      if String.eqb name c then Some O else S <$> col_index name cols'
  end.

Definition cell (row : list PyVal) (i : nat) : PyVal := default PyNone (row !! i).

(** The labels of a key list, when every element is a string. *)
Fixpoint labels_of (l : list PyVal) : option (list string) :=
  match l with
  | [] => Some []
  | PyStr s :: l' => (s ::.) <$> labels_of l'
  | _ => None
  end.

Fixpoint col_indices (names cols : list string) : outcome (list nat) :=
  match names with
  | [] => Returns []
  | n :: names' =>
      match col_index n cols with
      | None => Raises (KeyError n)
      | Some i =>
          match col_indices names' cols with
          | Returns ixs => Returns (i :: ixs)
          | Raises e => Raises e
          end
      end
  end.

(** [df[key]] for a list of labels: the sub-frame with those columns, in
    the order of the key; [KeyError] when a label is not a column. *)
Definition getitem_frame (df : DataFrame) (key : PyVal) : outcome DataFrame :=
  match key with
  | PyList l =>
      match labels_of l with
      | Some names =>
          match col_indices names (columns df) with
          | Returns ixs =>
              Returns {| columns := names;
                         rows := (fun r => cell r <$> ixs) <$> rows df |}
          | Raises e => Raises e
          end
      | None => Raises (KeyError "non-string label")
      end
  | _ => Raises (TypeError "key is not a list of labels")
  end.

(** [df[key]] for a single label: that column; [KeyError] when absent. *)
Definition getitem_column (df : DataFrame) (key : PyVal) : outcome Series :=
  match key with
  | PyStr name =>
      match col_index name (columns df) with
      | Some i => Returns ((fun r => cell r i) <$> rows df)
      | None => Raises (KeyError name)
      end
  | _ => Raises (KeyError "non-string label")
  end.

(** [x.iloc[idx]]: the rows at the given positions. *)
Definition take_frame (df : DataFrame) (idx : list nat) : DataFrame :=
  {| columns := columns df; rows := omap (fun i => rows df !! i) idx |}.

Definition take_series (s : Series) (idx : list nat) : Series :=
  omap (fun i => s !! i) idx.

(** ** scikit-learn and numpy: the collaborators

    The estimators, the random number generator and the report are not
    code of the repository.  [Rng] is the state of a numpy random
    generator, [Fitted] what an estimator has learned, [Report] the
    dictionary [classification_report] builds.  The fields give what a
    call returns or raises; the warnings a library may emit while it
    runs are not modelled. *)

Inductive EstimatorClass : Type :=
| RandomForestClassifier
| SVC
| GradientBoostingClassifier.

(** What [predict] is called on: the test frame, or whatever the caller
    passes. *)
Inductive Data : Type :=
| Frame (df : DataFrame)
| Value (v : PyVal).

Class Sklearn : Type := {
  Rng : Type;
  Fitted : Type;
  Report : Type;
  (** [numpy.random.RandomState(seed)] *)
  seed_rng : Z -> Rng;
  (** [rng.permutation(n)]: the permutation drawn and the generator after it *)
  rng_permutation : Rng -> nat -> list nat * Rng;
  (** the keyword names the constructor of a class declares *)
  sk_init_params : EstimatorClass -> list string;
  (** the keys of [estimator.get_params()] *)
  sk_get_params : EstimatorClass -> dict -> list string;
  (** [estimator.fit(x, y)] *)
  sk_fit : EstimatorClass -> dict -> DataFrame -> Series -> Rng ->
           outcome Fitted * Rng;
  (** [estimator.predict(data)] *)
  sk_predict : EstimatorClass -> dict -> option Fitted -> Data -> Rng ->
               outcome Series * Rng;
  (** [classification_report(y_true, y_pred, output_dict=False)] *)
  classification_report_text : Series -> Series -> outcome string;
  (** [classification_report(y_true, y_pred, output_dict=True)] *)
  classification_report_dict : Series -> Series -> outcome Report
}.

Section Estimators.
Context `{SK : Sklearn}.

(** An estimator object: its class, the constructor arguments it keeps
    as attributes, and what [fit] has learned ([None] before [fit]). *)
Record Estimator : Type := {
  est_class : EstimatorClass;
  est_params : dict;
  est_fitted : option Fitted
}.

(** Calling a class with the entries of [kwargs] as keyword arguments:
    Python rejects a keyword the constructor does not declare; the
    constructor itself only stores its arguments. *)
Definition new_estimator (cls : EstimatorClass) (kwargs : dict) : outcome Estimator :=
  match filter (fun k => negb (str_in k (sk_init_params cls))) (dict_keys kwargs) with
  | [] => Returns {| est_class := cls; est_params := kwargs; est_fitted := None |}
  | k :: _ =>
      Raises (TypeError ("__init__() got an unexpected keyword argument '" +:+ k +:+ "'"))
  end.

Definition get_params (m : Estimator) : list string :=
  sk_get_params (est_class m) (est_params m).

(** [m.fit(x, y)] mutates [m]; an estimator whose [fit] raised is kept as
    it was. *)
Definition estimator_fit (m : Estimator) (x : DataFrame) (y : Series) (g : Rng)
  : outcome unit * Estimator * Rng :=
  match sk_fit (est_class m) (est_params m) x y g with
  | (Returns f, g') =>
      (Returns tt,
       {| est_class := est_class m; est_params := est_params m; est_fitted := Some f |},
       g')
  | (Raises e, g') => (Raises e, m, g')
  end.

Definition estimator_predict (m : Estimator) (data : Data) (g : Rng)
  : outcome Series * Rng :=
  sk_predict (est_class m) (est_params m) (est_fitted m) data g.

(** [check_random_state(random_state)]: a fresh generator for an integer
    seed, the global generator for [None]. *)
Definition check_random_state (random_state : option Z) (global : Rng) : Rng :=
  match random_state with
  | Some seed => seed_rng seed
  | None => global
  end.

Record Split : Type := {
  sp_x_train : DataFrame;
  sp_x_test : DataFrame;
  sp_y_train : Series;
  sp_y_test : Series
}.

(** [train_test_split(x, y, test_size=test_size, random_state=random_state)]
    for a float [test_size], with the defaults [train_size=None],
    [shuffle=True], [stratify=None]:
    [n_test = ceil(test_size * n_samples)], [n_train = n_samples - n_test],
    both required to be in [1 .. n_samples - 1]; the test rows are the
    first [n_test] entries of a permutation of [0 .. n_samples - 1], the
    train rows the next [n_train].  The global generator advances only
    when no seed is given. *)
Definition train_test_split (x : DataFrame) (y : Series) (test_size : float)
    (random_state : option Z) (global : Rng) : outcome Split * Rng :=
  let n_samples := length (rows x) in
  if negb (Nat.eqb (length y) n_samples) then
    (Raises (ValueError "Found input variables with inconsistent numbers of samples"), global)
  else if float_le test_size float_zero || float_le float_one test_size then
    (Raises (ValueError "test_size should be in the (0, 1) range"), global)
  else
    match math_ceil (float_mul test_size (float_of_Z (Z.of_nat n_samples))) with
    | Raises e => (Raises e, global)
    | Returns n_test =>
        let n_train := Z.of_nat n_samples - n_test in
        if n_train =? 0 then
          (Raises (ValueError "the resulting train set will be empty"), global)
        else if (n_test <=? 0) || (Z.of_nat n_samples <=? n_test)
                || (n_train <=? 0) || (Z.of_nat n_samples <=? n_train) then
          (Raises (ValueError "test_size or train_size out of range"), global)
        else
          let rng := check_random_state random_state global in
          let '(permutation, rng') := rng_permutation rng n_samples in
          let ind_test := take (Z.to_nat n_test) permutation in
          let ind_train := take (Z.to_nat n_train) (drop (Z.to_nat n_test) permutation) in
          (Returns {| sp_x_train := take_frame x ind_train;
                      sp_x_test := take_frame x ind_test;
                      sp_y_train := take_series y ind_train;
                      sp_y_test := take_series y ind_test |},
           match random_state with Some _ => global | None => rng' end)
    end.

(** ** The instance *)

Record MlModel : Type := {
  filepath : string;
  type : PyVal;
  target_column : PyVal;
  features_list : PyVal;
  test_size : PyVal;
  kwargs : dict;
  dataset : DataFrame;
  x_train : DataFrame;
  x_test : DataFrame;
  y_train : Series;
  y_test : Series;
  model : Estimator;
  y_pred : option Series;
  report : option Report;
  last_prediction : option Series
}.

Definition set_kwargs (d : dict) (s : MlModel) : MlModel :=
  {| filepath := filepath s; type := type s; target_column := target_column s;
     features_list := features_list s; test_size := test_size s; kwargs := d;
     dataset := dataset s; x_train := x_train s; x_test := x_test s;
     y_train := y_train s; y_test := y_test s; model := model s;
     y_pred := y_pred s; report := report s; last_prediction := last_prediction s |}.

Definition set_model (m : Estimator) (s : MlModel) : MlModel :=
  {| filepath := filepath s; type := type s; target_column := target_column s;
     features_list := features_list s; test_size := test_size s; kwargs := kwargs s;
     dataset := dataset s; x_train := x_train s; x_test := x_test s;
     y_train := y_train s; y_test := y_test s; model := m;
     y_pred := y_pred s; report := report s; last_prediction := last_prediction s |}.

Definition set_y_pred (v : option Series) (s : MlModel) : MlModel :=
  {| filepath := filepath s; type := type s; target_column := target_column s;
     features_list := features_list s; test_size := test_size s; kwargs := kwargs s;
     dataset := dataset s; x_train := x_train s; x_test := x_test s;
     y_train := y_train s; y_test := y_test s; model := model s;
     y_pred := v; report := report s; last_prediction := last_prediction s |}.

Definition set_report (r : option Report) (s : MlModel) : MlModel :=
  {| filepath := filepath s; type := type s; target_column := target_column s;
     features_list := features_list s; test_size := test_size s; kwargs := kwargs s;
     dataset := dataset s; x_train := x_train s; x_test := x_test s;
     y_train := y_train s; y_test := y_test s; model := model s;
     y_pred := y_pred s; report := r; last_prediction := last_prediction s |}.

Definition set_last_prediction (v : option Series) (s : MlModel) : MlModel :=
  {| filepath := filepath s; type := type s; target_column := target_column s;
     features_list := features_list s; test_size := test_size s; kwargs := kwargs s;
     dataset := dataset s; x_train := x_train s; x_test := x_test s;
     y_train := y_train s; y_test := y_test s; model := model s;
     y_pred := y_pred s; report := report s; last_prediction := v |}.

End Estimators.

(** ** Files, warnings and the console *)

(** The content of a file is opaque; [read_csv_content] is the parser of
    [pandas.read_csv(path, header=0)], as to what it returns or raises. *)
Class Storage : Type := {
  Blob : Type;
  read_csv_content : Blob -> outcome DataFrame
}.

Inductive Event : Type :=
| Warn (msg : string)
| Print (text : string).

Section Manager.
Context `{SK : Sklearn} `{ST : Storage}.

(** The world outside the instance: the regular files, the global numpy
    generator, and the calls of [warnings.warn] and [print] that the
    code of model.py has made so far, oldest first. *)
Record World : Type := {
  w_fs : gmap string Blob;
  w_rng : Rng;
  w_out : list Event
}.

Definition set_rng (g : Rng) (w : World) : World :=
  {| w_fs := w_fs w; w_rng := g; w_out := w_out w |}.

Definition emit (ev : Event) (w : World) : World :=
  {| w_fs := w_fs w; w_rng := w_rng w; w_out := w_out w ++ [ev] |}.

(** [os.path.isfile(path)] *)
Definition isfile (w : World) (path : string) : bool :=
  bool_decide (is_Some (w_fs w !! path)).

(** [pd.read_csv(path, header=0)] *)
Definition read_csv (w : World) (path : string) : outcome DataFrame :=
  match w_fs w !! path with
  | Some content => read_csv_content content
  | None => Raises (FileNotFoundError path)
  end.

(** Modelled from the spec: the constant [VALID_MODELS] that model.py
    imports from the package's [__init__.py], which is not among the
    sources.  The spec gives the supported kinds as RandomForest, SVM and
    GBM, the three names [__initialize_model] dispatches on. *)
Definition VALID_MODELS : list string := ["RandomForest"; "SVM"; "GBM"].

(** [MlModel.__verify_input] *)
Definition verify_input (w : World) (model_type : PyVal) (filepath : string)
    (target features test_size : PyVal) : outcome unit :=
  if negb (existsb (eq_str model_type) VALID_MODELS) then
    Raises (ValueError "Model type not supported.")
  else if negb (isfile w filepath) then
    Raises (FileNotFoundError ("File '" +:+ filepath +:+ "' does not exist."))
  else if negb (isinstance_str target) then
    Raises (TypeError "Target must be a string.")
  else
    match features with
    | PyList l =>
        if negb (forallb isinstance_str l) then
          Raises (TypeError "Features must be a list of strings.")
        else
          match test_size with
          | PyFloat x =>
              if float_le x float_zero || float_le float_one x then
                Raises (ValueError "Test size must be between 0 and 1.")
              else Returns tt
          | _ => Raises (TypeError "Test size must be a float.")
          end
    | _ => Raises (TypeError "Features must be a list.")
    end.

(** [MlModel.__initialize_model], on the attributes [type] and [kwargs]. *)
Definition initialize_model (type : PyVal) (kwargs : PyVal) : outcome Estimator :=
  let construct cls :=
    match kwargs with
    | PyDict d => new_estimator cls d
    | _ => Raises (TypeError "argument after ** must be a mapping")
    end in
  if eq_str type "RandomForest" then construct RandomForestClassifier
  else if eq_str type "SVM" then construct SVC
  else if eq_str type "GBM" then construct GradientBoostingClassifier
  else Raises (ValueError "Model type not supported.").

(** [MlModel.__preprocess_data], on the attributes it reads.  The seed 42
    is the [random_state] the source passes.  [__verify_input] has
    established that [test_size] is a float. *)
Definition preprocess_data (dataset : DataFrame) (features_list target_column test_size : PyVal)
    (global : Rng) : outcome Split * Rng :=
  match getitem_frame dataset features_list with
  | Raises e => (Raises e, global)
  | Returns x =>
      match getitem_column dataset target_column with
      | Raises e => (Raises e, global)
      | Returns y =>
          match test_size with
          | PyFloat ts => train_test_split x y ts (Some 42) global
          | _ => (Raises (TypeError "test_size is not a float"), global)
          end
      end
  end.

Definition as_dict (v : PyVal) : dict :=
  match v with PyDict d => d | _ => [] end.

(** [MlModel.__init__].  [kwargs] is the dictionary of the extra keyword
    arguments of the call; the hyperparameters are its entry ['kwargs'].
    When that entry is not a dictionary, [__initialize_model] raises. *)
Definition init (filepath : string) (model_type target_column features_list test_size : PyVal)
    (kwargs : dict) (w : World) : outcome MlModel * World :=
  match verify_input w model_type filepath target_column features_list test_size with
  | Raises e => (Raises e, w)
  | Returns _ =>
      match dict_get "kwargs" kwargs with
      | None => (Raises (KeyError "kwargs"), w)
      | Some self_kwargs =>
          match read_csv w filepath with
          | Raises e => (Raises e, w)
          | Returns dataset =>
              match preprocess_data dataset features_list target_column test_size (w_rng w) with
              | (Raises e, g) => (Raises e, set_rng g w)
              | (Returns sp, g) =>
                  match initialize_model model_type self_kwargs with
                  | Raises e => (Raises e, set_rng g w)
                  | Returns m =>
                      (Returns {| filepath := filepath;
                                  type := model_type;
                                  target_column := target_column;
                                  features_list := features_list;
                                  test_size := test_size;
                                  kwargs := as_dict self_kwargs;
                                  dataset := dataset;
                                  x_train := sp_x_train sp;
                                  x_test := sp_x_test sp;
                                  y_train := sp_y_train sp;
                                  y_test := sp_y_test sp;
                                  model := m;
                                  y_pred := None;
                                  report := None;
                                  last_prediction := None |},
                       set_rng g w)
                  end
              end
          end
      end
  end.

(** *** Methods: state transformers with exceptions *)

Definition M (A : Type) : Type := MlModel * World -> outcome A * (MlModel * World).

Definition ret {A} (a : A) : M A := fun st => (Returns a, st).

Definition raise {A} (e : exn) : M A := fun st => (Raises e, st).

Definition bind {A B} (c : M A) (k : A -> M B) : M B :=
  fun st =>
    match c st with
    | (Returns a, st') => k a st'
    | (Raises e, st') => (Raises e, st')
    end.

Notation "x <- c ;; k" := (bind c (fun x => k))
  (at level 100, c at next level, right associativity).
Notation "c ;;; k" := (bind c (fun _ => k))
  (at level 100, right associativity).

Definition self : M MlModel := fun st => (Returns st.1, st).

Definition assign (f : MlModel -> MlModel) : M unit :=
  fun st => (Returns tt, (f st.1, st.2)).

Definition lift {A} (o : outcome A) : M A := fun st => (o, st).

(** [warnings.warn(msg)] *)
Definition warn (msg : string) : M unit :=
  fun st => (Returns tt, (st.1, emit (Warn msg) st.2)).

(** [print(text)] *)
Definition print (text : string) : M unit :=
  fun st => (Returns tt, (st.1, emit (Print text) st.2)).

(** [self.model.predict(data)] *)
Definition model_predict (data : Data) : M Series :=
  fun st =>
    let '(r, g) := estimator_predict (model st.1) data (w_rng st.2) in
    (r, (st.1, set_rng g st.2)).

(** [self.model.fit(self.x_train, self.y_train)] *)
Definition model_fit : M unit :=
  fun st =>
    let '(r, m, g) := estimator_fit (model st.1) (x_train st.1) (y_train st.1) (w_rng st.2) in
    (r, (set_model m st.1, set_rng g st.2)).

(** The body of [MlModel.setup], on the dictionary [new_kwargs] its
    parameter [kwargs] is bound to (the source gives the parameter the
    name of the attribute). *)
Definition setup (new_kwargs : dict) : M unit :=
  s <- self ;;
  let invalid_kwargs :=
    filter (fun kwarg => negb (str_in kwarg (get_params (model s)))) (dict_keys new_kwargs) in
  match invalid_kwargs with
  | _ :: _ => raise (ValueError ("Invalid kwargs found: " +:+ join ", " invalid_kwargs))
  | [] =>
      assign (fun s => set_kwargs (dict_update (kwargs s) new_kwargs) s) ;;;
      s <- self ;;
      m <- lift (initialize_model (type s) (PyDict (kwargs s))) ;;
      assign (set_model m) ;;;
      model_fit ;;;
      s <- self ;;
      v <- model_predict (Frame (x_test s)) ;;
      assign (set_y_pred (Some v))
  end.

(** A call of [setup] with positional arguments [args] and keyword
    arguments [new_kwargs].  The method is declared with [self] and a
    catch-all for keywords: it takes no positional argument besides
    [self], and a keyword named [self] would bind that parameter a
    second time; every other keyword goes to the body. *)
Definition call_setup (args : list PyVal) (new_kwargs : dict) : M unit :=
  match args with
  | _ :: _ =>
      raise (TypeError "setup() takes 1 positional argument but more were given")
  | [] =>
      if str_in "self" (dict_keys new_kwargs) then
        raise (TypeError "setup() got multiple values for argument 'self'")
      else setup new_kwargs
  end.

(** The body of [MlModel.evaluate_model], on the value of [plot]. *)
Definition evaluate_model (plot : PyVal) : M Report :=
  s <- self ;;
  match y_pred s with
  | None =>
      warn "No data was loaded. Prediction will be done with test data." ;;;
      v <- model_predict (Frame (x_test s)) ;;
      assign (set_y_pred (Some v))
  | Some _ => ret tt
  end ;;;
  s <- self ;;
  let y_pred_now := default [] (y_pred s) in
  (if is_True plot then
     text <- lift (classification_report_text (y_test s) y_pred_now) ;;
     print text
   else ret tt) ;;;
  r <- lift (classification_report_dict (y_test s) y_pred_now) ;;
  assign (set_report (Some r)) ;;;
  ret r.

(** A call of [evaluate_model] with positional arguments [args] and
    keyword arguments [kwargs]: the method takes no positional argument
    besides [self], and the single keyword [plot]. *)
Definition call_evaluate_model (args : list PyVal) (kwargs : dict) : M Report :=
  match args with
  | _ :: _ =>
      raise (TypeError "evaluate_model() takes 1 positional argument but more were given")
  | [] =>
      match filter (fun k => negb (String.eqb k "plot")) (dict_keys kwargs) with
      | k :: _ =>
          raise (TypeError ("evaluate_model() got an unexpected keyword argument '" +:+ k +:+ "'"))
      | [] => evaluate_model (default (PyBool false) (dict_get "plot" kwargs))
      end
  end.

(** [MlModel.predict(self, data)] *)
Definition predict (data : Data) : M Series :=
  v <- model_predict data ;;
  assign (set_last_prediction (Some v)) ;;;
  model_predict data.

End Manager.

(** ** A small concrete world

    One instantiation of the collaborators, used to run the methods on
    concrete inputs.  The estimator learns the first training label and
    predicts it for every row of a frame.  Like scikit-learn's
    estimators it never predicts before [fit]: the random forest and the
    SVC check that they are fitted first and raise [NotFittedError]; the
    gradient boosting classifier validates its input first and raises
    [ValueError] on what is not a table with a column, fitted or not.
    The generator is a counter and a permutation is a rotation by it. *)
Module Toy.

Definition not_fitted_msg : string :=
  "This instance is not fitted yet. Call 'fit' with appropriate arguments before using this estimator.".

Definition toy_init_params (cls : EstimatorClass) : list string :=
  match cls with
  | RandomForestClassifier => ["n_estimators"; "max_depth"; "random_state"]
  | SVC => ["C"; "kernel"; "gamma"]
  | GradientBoostingClassifier => ["n_estimators"; "max_depth"; "learning_rate"; "warm_start"]
  end.

Definition toy_fit (cls : EstimatorClass) (params : dict) (x : DataFrame) (y : Series)
    (g : nat) : outcome PyVal * nat :=
  match columns x, y with
  | [], _ => (Raises (ValueError "at least one array or dtype is required"), g)
  | _, [] => (Raises (ValueError "Found array with 0 sample(s)"), g)
  | _, label :: _ => (Returns label, S g)
  end.

(** What the input validation of the gradient boosting classifier lets
    through: a table with at least one column. *)
Definition toy_valid_array (data : Data) : bool :=
  match data with
  | Frame df => match columns df with [] => false | _ :: _ => true end
  | Value _ => false
  end.

Definition toy_predict_checked (fitted : option PyVal) (data : Data) (g : nat)
  : outcome Series * nat :=
  match fitted with
  | None => (Raises (NotFittedError not_fitted_msg), g)
  | Some label =>
      match data with
      | Frame df => (Returns ((fun _ => label) <$> rows df), g)
      | Value _ => (Raises (ValueError "Expected 2D array"), g)
      end
  end.

Definition toy_predict (cls : EstimatorClass) (params : dict) (fitted : option PyVal)
    (data : Data) (g : nat) : outcome Series * nat :=
  match cls with
  | GradientBoostingClassifier =>
      if toy_valid_array data then toy_predict_checked fitted data g
      else (Raises (ValueError "Expected 2D array"), g)
  | _ => toy_predict_checked fitted data g
  end.

Definition toy_report (y_true y_pred : Series) : outcome (list (PyVal * PyVal)) :=
  if Nat.eqb (length y_true) (length y_pred) then Returns (zip y_true y_pred)
  else Raises (ValueError "Found input variables with inconsistent numbers of samples").

Definition toy_report_text (y_true y_pred : Series) : outcome string :=
  match toy_report y_true y_pred with
  | Returns _ => Returns "precision recall f1-score support"
  | Raises e => Raises e
  end.

#[export] Instance sklearn : Sklearn := {|
  Rng := nat;
  Fitted := PyVal;
  Report := list (PyVal * PyVal);
  seed_rng := Z.to_nat;
  rng_permutation := fun g n => (rotate g (seq 0 n), S g);
  sk_init_params := toy_init_params;
  sk_get_params := fun cls _ => toy_init_params cls;
  sk_fit := toy_fit;
  sk_predict := toy_predict;
  classification_report_text := toy_report_text;
  classification_report_dict := toy_report
|}.

(** The same estimator with a [predict] that consults the generator: on
    an odd state it answers [None] labels.  It shows what two calls in a
    row may do when [predict] is not a function of its arguments. *)
Definition flaky_predict (cls : EstimatorClass) (params : dict) (fitted : option PyVal)
    (data : Data) (g : nat) : outcome Series * nat :=
  match fitted with
  | None => (Raises (NotFittedError not_fitted_msg), g)
  | Some label =>
      match data with
      | Frame df =>
          (Returns ((fun _ => if Nat.even g then label else PyNone) <$> rows df), S g)
      | Value _ => (Raises (ValueError "Expected 2D array"), g)
      end
  end.

Definition flaky_sklearn : Sklearn := {|
  Rng := nat;
  Fitted := PyVal;
  Report := list (PyVal * PyVal);
  seed_rng := Z.to_nat;
  rng_permutation := fun g n => (rotate g (seq 0 n), S g);
  sk_init_params := toy_init_params;
  sk_get_params := fun cls _ => toy_init_params cls;
  sk_fit := toy_fit;
  sk_predict := flaky_predict;
  classification_report_text := toy_report_text;
  classification_report_dict := toy_report
|}.

(** A file holds a table the parser reads, or bytes it cannot read. *)
Inductive content : Type :=
| Csv (df : DataFrame)
| Unreadable.

#[export] Instance storage : Storage := {|
  Blob := content;
  read_csv_content := fun c =>
    match c with
    | Csv df => Returns df
    | Unreadable => Raises (ParserError "Error tokenizing data")
    end
|}.

Definition num (n : Z) : PyVal := PyInt n.

(** training.csv: five rows with the columns slope, clay, label. *)
Definition training : DataFrame := {|
  columns := ["slope"; "clay"; "label"];
  rows := [ [num 10; num 1; num 0];
            [num 20; num 2; num 1];
            [num 30; num 3; num 0];
            [num 40; num 4; num 1];
            [num 50; num 5; num 1] ]
|}.

(** unlabelled.csv: the same rows without the label column. *)
Definition unlabelled : DataFrame := {|
  columns := ["slope"; "clay"];
  rows := [ [num 10; num 1]; [num 20; num 2]; [num 30; num 3] ]
|}.

(** tiny.csv: the first two rows of training.csv. *)
Definition tiny : DataFrame := {|
  columns := ["slope"; "clay"; "label"];
  rows := [ [num 10; num 1; num 0]; [num 20; num 2; num 1] ]
|}.

Definition files : gmap string content :=
  <["training.csv" := Csv training]>
    (<["unlabelled.csv" := Csv unlabelled]> (<["tiny.csv" := Csv tiny]> ∅)).

Definition world (g : nat) : World :=
  {| w_fs := files; w_rng := g; w_out := [] |}.

(** The float literals 0.2 and 0.9. *)
Definition f0_2 : float := float_div (float_of_Z 1) (float_of_Z 5).
Definition f0_9 : float := float_div (float_of_Z 9) (float_of_Z 10).

Definition features : PyVal := PyList [PyStr "slope"; PyStr "clay"].

(** [generate_model("training.csv", "RandomForest", features, "label", 0.2)]
    as the tests build it: no hyperparameters. *)
Definition fresh : outcome MlModel * World :=
  init "training.csv" (PyStr "RandomForest") (PyStr "label") features (PyFloat f0_2)
       [("kwargs", PyDict [])] (world 0).

(** An instance with nothing in it, the default of the selectors below. *)
Definition blank : MlModel := {|
  filepath := ""; type := PyNone; target_column := PyNone; features_list := PyNone;
  test_size := PyNone; kwargs := [];
  dataset := {| columns := []; rows := [] |};
  x_train := {| columns := []; rows := [] |};
  x_test := {| columns := []; rows := [] |};
  y_train := []; y_test := [];
  model := {| est_class := RandomForestClassifier; est_params := []; est_fitted := None |};
  y_pred := None; report := None; last_prediction := None
|}.

Definition returned {A} (d : A) (o : outcome A) : A :=
  match o with Returns a => a | Raises _ => d end.

(** The instance [fresh] builds. *)
Definition fresh_model : MlModel := Eval vm_compute in returned blank fresh.1.

(** [fresh_model.setup(n_estimators=100, max_depth=10)], as in the tests. *)
Definition configured : outcome unit * (MlModel * World) :=
  Eval vm_compute in
    setup [("n_estimators", num 100); ("max_depth", num 10)] (fresh_model, world 0).

Definition fitted_model : MlModel := configured.2.1.
Definition fitted_world : World := configured.2.2.

(** The same construction with the gradient boosting classifier. *)
Definition fresh_gbm : outcome MlModel * World :=
  init "training.csv" (PyStr "GBM") (PyStr "label") features (PyFloat f0_2)
       [("kwargs", PyDict [])] (world 0).

Definition fresh_gbm_model : MlModel := Eval vm_compute in returned blank fresh_gbm.1.

(** The fitted instance over the estimator with the generator-dependent
    [predict]. *)
Definition flaky_model : @MlModel flaky_sklearn :=
  @Build_MlModel flaky_sklearn
    "training.csv" (PyStr "RandomForest") (PyStr "label") features (PyFloat f0_2) []
    training (x_train fresh_model) (x_test fresh_model)
    (y_train fresh_model) (y_test fresh_model)
    (@Build_Estimator flaky_sklearn RandomForestClassifier [] (Some (num 1)))
    (Some [num 1]) None None.

Definition flaky_world : @World flaky_sklearn storage :=
  @Build_World flaky_sklearn storage files 0%nat [].

(** The same estimators with a [get_params] that goes into the
    estimator held by the parameter [init] of the gradient boosting
    classifier: with [init] set it lists the nested key
    [init__strategy], which no constructor accepts. *)
Definition nested_init_params (cls : EstimatorClass) : list string :=
  match cls with
  | GradientBoostingClassifier => "init" :: toy_init_params cls
  | _ => toy_init_params cls
  end.

Definition nested_get_params (cls : EstimatorClass) (params : dict) : list string :=
  nested_init_params cls
  ++ (if str_in "init" (dict_keys params) then ["init__strategy"] else []).

Definition nested_sklearn : Sklearn := {|
  Rng := nat;
  Fitted := PyVal;
  Report := list (PyVal * PyVal);
  seed_rng := Z.to_nat;
  rng_permutation := fun g n => (rotate g (seq 0 n), S g);
  sk_init_params := nested_init_params;
  sk_get_params := nested_get_params;
  sk_fit := toy_fit;
  sk_predict := toy_predict;
  classification_report_text := toy_report_text;
  classification_report_dict := toy_report
|}.

(** The instance constructed with [init=DummyClassifier()] over it. *)
Definition nested_model : @MlModel nested_sklearn :=
  @Build_MlModel nested_sklearn
    "training.csv" (PyStr "GBM") (PyStr "label") features (PyFloat f0_2)
    [("init", PyStr "DummyClassifier()")]
    training (x_train fresh_model) (x_test fresh_model)
    (y_train fresh_model) (y_test fresh_model)
    (@Build_Estimator nested_sklearn GradientBoostingClassifier
       [("init", PyStr "DummyClassifier()")] None)
    None None None.

Definition nested_world : @World nested_sklearn storage :=
  @Build_World nested_sklearn storage files 0%nat [].

(** The instance built with an empty list of features: its frames have
    no column, and the estimator cannot be fitted on them. *)
Definition featureless_model : MlModel :=
  Eval vm_compute in
    returned blank
      (init "training.csv" (PyStr "RandomForest") (PyStr "label") (PyList [])
            (PyFloat f0_2) [("kwargs", PyDict [])] (world 0)).1.

(** New rows to predict on. *)
Definition new_rows : Data :=
  Frame {| columns := ["slope"; "clay"]; rows := [ [num 15; num 2]; [num 45; num 4] ] |}.

End Toy.

(** ** Vocabulary of the properties *)

(** [k] occurs in [msg] as a contiguous run of characters. *)
Definition mentions (msg k : string) : Prop :=
  exists pre post, msg = pre +:+ k +:+ post.

Section Laws.
Context `{SK : Sklearn}.

(** An estimator that holds no fitted state, because [fit] was never
    called on it or because its [fit] raised, does not predict: its
    [predict] raises, whatever the input.  The three classifiers
    [MlModel] builds are so; which exception they raise depends on the
    class and the input. *)
Definition unfitted_predict_raises : Prop :=
  forall cls params data g,
    exists e, (sk_predict cls params None data g).1 = Raises e.

(** The class [cls] checks that it is fitted before it looks at the
    input, so that a never-fitted estimator of the class raises
    [NotFittedError] on every input.  [RandomForestClassifier.predict]
    is written so; [GradientBoostingClassifier.predict] is not: it
    validates the input array first. *)
Definition checks_fitted_first (cls : EstimatorClass) : Prop :=
  forall params data g,
    exists msg, (sk_predict cls params None data g).1 = Raises (NotFittedError msg).

(** [predict] is a function of the estimator and the data: what it
    answers does not depend on the state of the generator. *)
Definition predict_deterministic : Prop :=
  forall cls params fitted data g1 g2,
    (sk_predict cls params fitted data g1).1 = (sk_predict cls params fitted data g2).1.

(** numpy's [permutation(n)] is a permutation of [0 .. n - 1]. *)
Definition permutation_valid : Prop :=
  forall g n, (rng_permutation g n).1 ≡ₚ seq 0 n.

End Laws.

Section Vocabulary.
Context `{SK : Sklearn} `{ST : Storage}.

(** The keys [setup] rejects: those of the call that [get_params] of the
    current estimator does not list. *)
Definition offending (s : MlModel) (new_kwargs : dict) : list string :=
  filter (fun kwarg => negb (str_in kwarg (get_params (model s)))) (dict_keys new_kwargs).

(** The calls a client may make on an instance apart from [setup]. *)
Inductive Call : Type :=
| CallPredict (data : Data)
| CallEvaluateModel (args : list PyVal) (kwargs : dict).

Definition run_call (st : MlModel * World) (c : Call) : MlModel * World :=
  match c with
  | CallPredict data => (predict data st).2
  | CallEvaluateModel args kwargs => (call_evaluate_model args kwargs st).2
  end.

Definition run_calls (calls : list Call) (st : MlModel * World) : MlModel * World :=
  fold_left run_call calls st.

(** What [evaluate_model] answers and prints once the predictions [v]
    are settled. *)
Definition report_of (plot : PyVal) (y_true v : Series) : outcome Report * list Event :=
  if is_True plot then
    match classification_report_text y_true v with
    | Raises e => (Raises e, [])
    | Returns text => (classification_report_dict y_true v, [Print text])
    end
  else (classification_report_dict y_true v, []).

(** Two instances that differ at most in [last_prediction]. *)
Definition same_but_last_prediction (s s' : MlModel) : Prop :=
  s' = set_last_prediction (last_prediction s') s.

End Vocabulary.

(** ** Vocabulary of the properties of whole sessions *)

Section Operations.
Context `{SK : Sklearn} `{ST : Storage}.

(** Every call a client may make on an instance; [OpSetup] is a call of
    [setup] with keyword arguments only. *)
Inductive Op : Type :=
| OpSetup (new_kwargs : dict)
| OpPredict (data : Data)
| OpEvaluateModel (args : list PyVal) (kwargs : dict).

Definition run_op (st : MlModel * World) (op : Op) : MlModel * World :=
  match op with
  | OpSetup new_kwargs => (call_setup [] new_kwargs st).2
  | OpPredict data => (predict data st).2
  | OpEvaluateModel args kwargs => (call_evaluate_model args kwargs st).2
  end.

Definition run_ops (ops : list Op) (st : MlModel * World) : MlModel * World :=
  fold_left run_op ops st.

(** The attributes the constructor fills from its arguments and from
    the file. *)
Definition same_split (s s' : MlModel) : Prop :=
  filepath s' = filepath s /\ type s' = type s
  /\ target_column s' = target_column s /\ features_list s' = features_list s
  /\ test_size s' = test_size s /\ dataset s' = dataset s
  /\ x_train s' = x_train s /\ x_test s' = x_test s
  /\ y_train s' = y_train s /\ y_test s' = y_test s.

(** The class [__initialize_model] picks for a model type. *)
Definition class_of_type (ty : PyVal) : option EstimatorClass :=
  if eq_str ty "RandomForest" then Some RandomForestClassifier
  else if eq_str ty "SVM" then Some SVC
  else if eq_str ty "GBM" then Some GradientBoostingClassifier
  else None.

(** The messages passed to [warnings.warn], oldest first. *)
Definition warnings_of (evs : list Event) : list string :=
  omap (fun ev => match ev with Warn msg => Some msg | Print _ => None end) evs.

(** [c] is one of the characters of [s]. *)
Fixpoint has_char (c : Ascii.ascii) (s : string) : bool :=
  match s with
  | EmptyString => false
  | String c' s' => Ascii.eqb c c' || has_char c s'
  end.

(** With no predictions stored, the estimator of the instance raises
    from [predict] on the test split, in whatever state the generator
    is. *)
Definition fallback_raises (st : MlModel * World) : Prop :=
  y_pred st.1 = None ->
  forall g, exists e, (estimator_predict (model st.1) (Frame (x_test st.1)) g).1 = Raises e.

(** Features and labels, row by row. *)
Definition labelled (x : DataFrame) (y : Series) : list (list PyVal * PyVal) :=
  zip (rows x) y.

End Operations.

(** [get_params] lists no key the constructor of the class would refuse:
    so it is for an estimator none of whose parameters is itself an
    estimator. *)
Definition get_params_within_signature `{SK : Sklearn} : Prop :=
  forall cls d k, k ∈ sk_get_params cls d -> k ∈ sk_init_params cls.

(** * Properties *)

(** ** Strings and keys *)

Lemma append_assoc (a b c : string) : (a +:+ b) +:+ c = a +:+ (b +:+ c).
Proof.
  induction a as [|ch a IH]; [reflexivity|].
  change (String ch ((a +:+ b) +:+ c) = String ch (a +:+ (b +:+ c))).
  by rewrite IH.
Qed.

Lemma append_nil_r (a : string) : a +:+ "" = a.
Proof.
  induction a as [|ch a IH]; [reflexivity|].
  change (String ch (a +:+ "") = String ch a). by rewrite IH.
Qed.

Lemma mentions_prefix (p msg k : string) : mentions msg k -> mentions (p +:+ msg) k.
Proof.
  intros (pre & post & ->). exists (p +:+ pre), post. by rewrite append_assoc.
Qed.

Lemma join_cons (sep s : string) (l : list string) :
  l <> [] -> join sep (s :: l) = s +:+ sep +:+ join sep l.
Proof. by destruct l. Qed.

Lemma join_mentions (sep k : string) (l : list string) :
  k ∈ l -> mentions (join sep l) k.
Proof.
  induction l as [|s l IH]; intros Hin; [by apply elem_of_nil in Hin|].
  destruct l as [|s' l].
  - apply list_elem_of_singleton in Hin as ->. exists "", "".
    by rewrite append_nil_r.
  - rewrite join_cons by done.
    apply elem_of_cons in Hin as [->|Hin].
    + by exists "", (sep +:+ join sep (s' :: l)).
    + apply mentions_prefix, mentions_prefix. by apply IH.
Qed.

Lemma str_in_spec (k : string) (l : list string) : str_in k l = true <-> k ∈ l.
Proof.
  unfold str_in. rewrite existsb_exists. split.
  - intros (x & Hx & Heq). apply String.eqb_eq in Heq as ->. by apply list_elem_of_In.
  - intros Hin. exists k. split; [by apply list_elem_of_In | apply String.eqb_refl].
Qed.

Lemma str_in_false (k : string) (l : list string) : str_in k l = false <-> k ∉ l.
Proof.
  rewrite <- str_in_spec. destruct (str_in k l); split; congruence.
Qed.

(** ** Reconfiguration *)

Section SetupProperties.
Context `{SK : Sklearn} `{ST : Storage}.

Lemma offending_spec (s : MlModel) (new_kwargs : dict) (k : string) :
  k ∈ offending s new_kwargs <->
  k ∈ dict_keys new_kwargs /\ k ∉ get_params (model s).
Proof.
  unfold offending. rewrite list_elem_of_filter, <- str_in_false.
  destruct (str_in k _); simpl; intuition congruence.
Qed.

Lemma setup_invalid (s : MlModel) (w : World) (new_kwargs : dict) :
  offending s new_kwargs <> [] ->
  setup new_kwargs (s, w) =
  (Raises (ValueError ("Invalid kwargs found: " +:+ join ", " (offending s new_kwargs))),
   (s, w)).
Proof.
  intros Hne. unfold setup, bind, self. simpl. fold (offending s new_kwargs).
  by destruct (offending s new_kwargs).
Qed.

(** The guard of the body: with a key that [get_params] of the current
    estimator does not list, the body raises a [ValueError] whose
    message contains every such key, and the instance and the world are
    what they were. *)
Lemma setup_guard (s : MlModel) (w : World) (new_kwargs : dict) :
  (exists k, k ∈ dict_keys new_kwargs /\ k ∉ get_params (model s)) ->
  exists msg,
    setup new_kwargs (s, w) = (Raises (ValueError msg), (s, w))
    /\ (forall k, k ∈ dict_keys new_kwargs -> k ∉ get_params (model s) -> mentions msg k).
Proof.
  intros (k0 & Hk0 & Hbad).
  assert (Hne : offending s new_kwargs <> []).
  { intros Hnil. assert (Hin : k0 ∈ offending s new_kwargs) by by apply offending_spec.
    rewrite Hnil in Hin. by apply elem_of_nil in Hin. }
  eexists. rewrite (setup_invalid s w new_kwargs Hne). split; [reflexivity|].
  intros k Hk Hnot. apply mentions_prefix, join_mentions. by apply offending_spec.
Qed.

Lemma call_setup_keywords (new_kwargs : dict) (st : MlModel * World) :
  "self" ∉ dict_keys new_kwargs -> call_setup [] new_kwargs st = setup new_kwargs st.
Proof.
  intros Hself. unfold call_setup. apply str_in_false in Hself. by rewrite Hself.
Qed.

Lemma call_setup_self (new_kwargs : dict) (st : MlModel * World) :
  "self" ∈ dict_keys new_kwargs ->
  call_setup [] new_kwargs st
  = (Raises (TypeError "setup() got multiple values for argument 'self'"), st).
Proof.
  intros Hself. unfold call_setup. apply str_in_spec in Hself. by rewrite Hself.
Qed.

(** A successful [setup] leaves in [y_pred] what the estimator it has
    fitted predicts on the test split. *)
Lemma setup_returns_y_pred (new_kwargs : dict) (st st' : MlModel * World) :
  setup new_kwargs st = (Returns tt, st') ->
  exists v g,
    y_pred st'.1 = Some v
    /\ y_test st'.1 = y_test st.1
    /\ x_test st'.1 = x_test st.1
    /\ (estimator_predict (model st'.1) (Frame (x_test st'.1)) g).1 = Returns v.
Proof.
  destruct st as [s w]. unfold setup, bind, self, assign, lift, model_fit, model_predict.
  simpl. destruct (filter _ _); [|discriminate].
  destruct (initialize_model _ _) as [m|e]; [|discriminate]. simpl.
  destruct (estimator_fit _ _ _ _) as [[[[]|e] m'] g]; [|discriminate]. simpl.
  destruct (estimator_predict m' _ g) as [[v|e] g'] eqn:Hp; [|discriminate]. simpl.
  intros [= <-]. exists v, g. simpl. by rewrite Hp.
Qed.

End SetupProperties.

Lemma has_char_app (c : Ascii.ascii) (a b : string) :
  has_char c (a +:+ b) = has_char c a || has_char c b.
Proof.
  induction a as [|ch a IH]; [done|].
  change (has_char c (String ch (a +:+ b)) = has_char c (String ch a) || has_char c b).
  simpl. rewrite IH. by rewrite orb_assoc.
Qed.

Lemma mentions_has_char (c : Ascii.ascii) (msg k : string) :
  mentions msg k -> has_char c k = true -> has_char c msg = true.
Proof.
  intros (pre & post & ->) Hc. rewrite !has_char_app, Hc.
  by rewrite orb_true_r.
Qed.

(** ** Prediction and evaluation *)

Ltac unfold_methods :=
  unfold predict, call_evaluate_model, evaluate_model, bind, self, assign, lift,
    warn, print, model_predict, ret, raise in *.

Section CallProperties.
Context `{SK : Sklearn} `{ST : Storage}.

Lemma model_predict_eq (data : Data) (s : MlModel) (w : World) :
  model_predict data (s, w) =
  ((estimator_predict (model s) data (w_rng w)).1,
   (s, set_rng (estimator_predict (model s) data (w_rng w)).2 w)).
Proof. unfold model_predict. simpl. by destruct (estimator_predict _ _ _). Qed.

(** [predict] in terms of the two calls it makes on the estimator. *)
Lemma predict_eq (data : Data) (s : MlModel) (w : World) :
  predict data (s, w) =
  match estimator_predict (model s) data (w_rng w) with
  | (Raises e, g) => (Raises e, (s, set_rng g w))
  | (Returns v, g) =>
      let '(r, g') := estimator_predict (model s) data g in
      (r, (set_last_prediction (Some v) s, set_rng g' w))
  end.
Proof.
  unfold_methods. simpl.
  destruct (estimator_predict (model s) data (w_rng w)) as [[v|e] g]; simpl; [|done].
  by destruct (estimator_predict (model s) data g) as [r g'].
Qed.

(** [evaluate_model] once [y_pred] holds [v]. *)
Lemma evaluate_model_some (plot : PyVal) (s : MlModel) (w : World) (v : Series) :
  y_pred s = Some v ->
  evaluate_model plot (s, w) =
  match report_of plot (y_test s) v with
  | (Returns r, evs) =>
      (Returns r, (set_report (Some r) s,
                   {| w_fs := w_fs w; w_rng := w_rng w; w_out := w_out w ++ evs |}))
  | (Raises e, evs) =>
      (Raises e, (s, {| w_fs := w_fs w; w_rng := w_rng w; w_out := w_out w ++ evs |}))
  end.
Proof.
  intros Hv. unfold_methods. unfold report_of, emit. simpl. rewrite Hv. simpl. rewrite Hv. simpl.
  destruct (is_True plot); simpl.
  - destruct (classification_report_text _ _) as [text|e]; simpl.
    + by destruct (classification_report_dict _ _).
    + rewrite app_nil_r. by destruct w.
  - rewrite app_nil_r. destruct (classification_report_dict _ _); by destruct w.
Qed.

(** [evaluate_model] when [y_pred] is [None]: the warning, then the
    prediction on the test split, then the report. *)
Lemma evaluate_model_none (plot : PyVal) (s : MlModel) (w : World) :
  y_pred s = None ->
  evaluate_model plot (s, w) =
  let w1 := emit (Warn "No data was loaded. Prediction will be done with test data.") w in
  match estimator_predict (model s) (Frame (x_test s)) (w_rng w) with
  | (Raises e, g) => (Raises e, (s, set_rng g w1))
  | (Returns v, g) => evaluate_model plot (set_y_pred (Some v) s, set_rng g w1)
  end.
Proof.
  intros Hv. unfold_methods. simpl. rewrite Hv. simpl.
  by destruct (estimator_predict _ _ _) as [[v|e] g].
Qed.

Lemma predict_model (data : Data) (st : MlModel * World) :
  model (predict data st).2.1 = model st.1.
Proof.
  destruct st as [s w]. rewrite predict_eq.
  destruct (estimator_predict _ _ _) as [[v|e] g]; [|done].
  by destruct (estimator_predict _ _ _) as [r g'].
Qed.

Lemma evaluate_model_model (plot : PyVal) (st : MlModel * World) :
  model (evaluate_model plot st).2.1 = model st.1.
Proof.
  destruct st as [s w]. destruct (y_pred s) as [v|] eqn:Hv.
  - rewrite (evaluate_model_some _ _ _ v Hv). by destruct (report_of _ _ _) as [[r|e] evs].
  - rewrite (evaluate_model_none _ _ _ Hv).
    destruct (estimator_predict _ _ _) as [[v|e] g]; [|done]. simpl.
    rewrite (evaluate_model_some _ _ _ v) by done.
    by destruct (report_of _ _ _) as [[r|e] evs].
Qed.

Lemma call_evaluate_model_model (args : list PyVal) (kw : dict) (st : MlModel * World) :
  model (call_evaluate_model args kw st).2.1 = model st.1.
Proof.
  unfold call_evaluate_model. destruct args; [|done].
  destruct (filter _ _); [|done]. apply evaluate_model_model.
Qed.

Lemma run_calls_model (calls : list Call) (st : MlModel * World) :
  model (run_calls calls st).1 = model st.1.
Proof.
  revert st. induction calls as [|c calls IH]; intros st; [done|].
  change (model (run_calls calls (run_call st c)).1 = model st.1). rewrite IH.
  destruct c; [apply predict_model | apply call_evaluate_model_model].
Qed.

End CallProperties.

(** ** An instance that was never reconfigured *)

Section Unfitted.
Context `{SK : Sklearn} `{ST : Storage}.

Lemma new_estimator_unfitted (cls : EstimatorClass) (d : dict) (m : Estimator) :
  new_estimator cls d = Returns m -> est_fitted m = None.
Proof.
  unfold new_estimator. destruct (filter _ _); [|discriminate]. by intros [= <-].
Qed.

Lemma initialize_model_unfitted (ty kw : PyVal) (m : Estimator) :
  initialize_model ty kw = Returns m -> est_fitted m = None.
Proof.
  unfold initialize_model.
  repeat (match goal with |- context [if ?b then _ else _] => destruct b end);
    try discriminate; destruct kw; try discriminate; apply new_estimator_unfitted.
Qed.

(** What [__init__] leaves: an estimator that was constructed and not
    fitted, and no prediction or report. *)
Lemma init_returns (path : string) (mt tgt feats ts : PyVal) (kw : dict)
    (w w' : World) (s : MlModel) :
  init path mt tgt feats ts kw w = (Returns s, w') ->
  est_fitted (model s) = None /\ y_pred s = None /\ report s = None
  /\ last_prediction s = None.
Proof.
  unfold init.
  destruct (verify_input _ _ _ _ _ _); [|discriminate].
  destruct (dict_get _ _) as [self_kwargs|]; [|discriminate].
  destruct (read_csv _ _) as [df|]; [|discriminate].
  destruct (preprocess_data _ _ _ _ _) as [[sp|] g]; [|discriminate].
  destruct (initialize_model _ _) as [m|] eqn:Hm; [|discriminate].
  intros [= <- <-]. simpl. eauto using initialize_model_unfitted.
Qed.

Lemma predict_unfitted (data : Data) (s : MlModel) (w : World) :
  unfitted_predict_raises -> est_fitted (model s) = None ->
  exists e g,
    predict data (s, w) = (Raises e, (s, set_rng g w))
    /\ sk_predict (est_class (model s)) (est_params (model s)) None data (w_rng w)
       = (Raises e, g).
Proof.
  intros Hlaw Hnone. rewrite predict_eq. unfold estimator_predict. rewrite Hnone.
  destruct (Hlaw (est_class (model s)) (est_params (model s)) data (w_rng w)) as [e He].
  destruct (sk_predict _ _ _ _ _) as [r g]. simpl in He. subst r. by exists e, g.
Qed.

Lemma evaluate_model_last_prediction (plot : PyVal) (st : MlModel * World) :
  last_prediction (evaluate_model plot st).2.1 = last_prediction st.1.
Proof.
  destruct st as [s w]. destruct (y_pred s) as [v|] eqn:Hv.
  - rewrite (evaluate_model_some _ _ _ v Hv). by destruct (report_of _ _ _) as [[r|e] evs].
  - rewrite (evaluate_model_none _ _ _ Hv).
    destruct (estimator_predict _ _ _) as [[v|e] g]; [|done]. simpl.
    rewrite (evaluate_model_some _ _ _ v) by done.
    by destruct (report_of _ _ _) as [[r|e] evs].
Qed.

Lemma run_calls_unfitted (calls : list Call) (st : MlModel * World) :
  unfitted_predict_raises -> est_fitted (model st.1) = None ->
  last_prediction st.1 = None ->
  last_prediction (run_calls calls st).1 = None.
Proof.
  intros Hlaw. revert st. induction calls as [|c calls IH]; intros st Hnone Hlast; [done|].
  change (last_prediction (run_calls calls (run_call st c)).1 = None).
  apply IH.
  - destruct c; simpl; [rewrite predict_model | rewrite call_evaluate_model_model]; done.
  - destruct c as [data|args kw]; simpl.
    + destruct st as [s w].
      destruct (predict_unfitted data s w Hlaw Hnone) as (e & g & -> & _). done.
    + unfold call_evaluate_model. destruct args; [|done].
      destruct (filter _ _); [|done]. by rewrite evaluate_model_last_prediction.
Qed.

(** C4, as the code has it.  On an instance built by [__init__] on which
    [setup] was never called, whatever calls of [predict] and
    [evaluate_model] came before, the estimator is the one the
    constructor built: it was never fitted.  A never-fitted estimator of
    scikit-learn raises from [predict]; [predict] of the instance then
    raises that very exception, returns no vector and leaves the
    instance as it was, with nothing in [last_prediction].  The
    exception is a [NotFittedError] when the estimator's class checks
    that it was fitted before it looks at the input, as the random
    forest and the support vector classifier do; the gradient boosting
    classifier validates its input first. *)
Theorem predict_before_setup_fails (path : string) (mt tgt feats ts : PyVal) (kw : dict)
    (w w' : World) (s : MlModel) (calls : list Call) (data : Data) :
  unfitted_predict_raises ->
  init path mt tgt feats ts kw w = (Returns s, w') ->
  let st := run_calls calls (s, w') in
  model st.1 = model s
  /\ est_fitted (model st.1) = None
  /\ (exists e g,
        predict data st = (Raises e, (st.1, set_rng g st.2))
        /\ sk_predict (est_class (model s)) (est_params (model s)) None data (w_rng st.2)
           = (Raises e, g))
  /\ last_prediction (predict data st).2.1 = None
  /\ (checks_fitted_first (est_class (model s)) ->
      exists msg, (predict data st).1 = Raises (NotFittedError msg)).
Proof.
  intros Hlaw Hinit st. apply init_returns in Hinit as (Hnone & _ & _ & Hlast).
  pose proof (run_calls_model calls (s, w')) as Hm.
  pose proof (run_calls_unfitted calls (s, w') Hlaw Hnone Hlast) as Hl.
  fold st in Hm, Hl. destruct st as [s1 w1]. simpl in Hm, Hl |- *.
  assert (Hnone1 : est_fitted (model s1) = None) by by rewrite Hm.
  destruct (predict_unfitted data s1 w1 Hlaw Hnone1) as (e & g & Hp & He).
  rewrite Hm in He. rewrite Hp. simpl.
  split; [done|]. split; [done|]. split; [by exists e, g|]. split; [done|].
  intros Hfirst.
  destruct (Hfirst (est_params (model s)) data (w_rng w1)) as [msg Hmsg].
  rewrite He in Hmsg. simpl in Hmsg. by exists msg.
Qed.

End Unfitted.

(** ** The small world obeys the laws *)

Lemma toy_unfitted_predict_raises : @unfitted_predict_raises Toy.sklearn.
Proof.
  intros cls params data g. simpl. unfold Toy.toy_predict.
  destruct cls; simpl; try by eexists.
  destruct (Toy.toy_valid_array data); by eexists.
Qed.

Lemma toy_checks_fitted_first_rf :
  @checks_fitted_first Toy.sklearn RandomForestClassifier.
Proof. intros params data g. by exists Toy.not_fitted_msg. Qed.

Lemma toy_checks_fitted_first_svc : @checks_fitted_first Toy.sklearn SVC.
Proof. intros params data g. by exists Toy.not_fitted_msg. Qed.

Lemma toy_predict_deterministic : @predict_deterministic Toy.sklearn.
Proof.
  intros cls params fitted data g1 g2. simpl. unfold Toy.toy_predict, Toy.toy_predict_checked.
  destruct cls; try (destruct fitted; [|done]; by destruct data).
  destruct (Toy.toy_valid_array data); [|done].
  destruct fitted; [|done]. by destruct data.
Qed.

Lemma rotate_permutation {A} (k : nat) (l : list A) : rotate k l ≡ₚ l.
Proof.
  unfold rotate. rewrite Permutation_app_comm. by rewrite take_drop.
Qed.

Lemma toy_permutation_valid : @permutation_valid Toy.sklearn.
Proof. intros g n. simpl. apply rotate_permutation. Qed.

Lemma toy_fresh : Toy.fresh = (Returns Toy.fresh_model, Toy.world 0).
Proof. vm_compute. reflexivity. Qed.

Lemma toy_configured : Toy.configured = (Returns tt, (Toy.fitted_model, Toy.fitted_world)).
Proof. reflexivity. Qed.

Lemma toy_fresh_gbm : Toy.fresh_gbm = (Returns Toy.fresh_gbm_model, Toy.world 0).
Proof. vm_compute. reflexivity. Qed.

Lemma predict_before_setup_fails_witness :
  exists msg,
    (predict Toy.new_rows
       (run_calls [CallEvaluateModel [] []; CallPredict Toy.new_rows]
                  (Toy.fresh_model, Toy.world 0))).1
    = Raises (NotFittedError msg)
    /\ last_prediction
         (predict Toy.new_rows
            (run_calls [CallEvaluateModel [] []; CallPredict Toy.new_rows]
                       (Toy.fresh_model, Toy.world 0))).2.1 = None.
Proof.
  destruct (predict_before_setup_fails "training.csv" (PyStr "RandomForest") (PyStr "label")
              Toy.features (PyFloat Toy.f0_2) [("kwargs", PyDict [])] (Toy.world 0)
              (Toy.world 0) Toy.fresh_model
              [CallEvaluateModel [] []; CallPredict Toy.new_rows] Toy.new_rows
              toy_unfitted_predict_raises toy_fresh)
    as (_ & _ & _ & Hlast & Hfirst).
  destruct (Hfirst toy_checks_fitted_first_rf) as [msg Hmsg].
  exists msg. split; [exact Hmsg | exact Hlast].
Defined.

(** C4 as stated fails for the gradient boosting classifier: the
    instance was built and never set up, and [predict] on a value that
    is no table raises the [ValueError] of the input validation, not a
    [NotFittedError]. *)
Lemma predict_before_setup_gbm_value_error :
  Toy.fresh_gbm = (Returns Toy.fresh_gbm_model, Toy.world 0)
  /\ (predict (Value (PyStr "slope")) (Toy.fresh_gbm_model, Toy.world 0)).1
     = Raises (ValueError "Expected 2D array")
  /\ ~ (exists msg,
          (predict (Value (PyStr "slope")) (Toy.fresh_gbm_model, Toy.world 0)).1
          = Raises (NotFittedError msg)).
Proof.
  split; [exact toy_fresh_gbm|]. split; [by vm_compute|].
  intros [msg Hmsg]. vm_compute in Hmsg. discriminate.
Qed.

(** ** The fallback of [evaluate_model] *)

Section Evaluate.
Context `{SK : Sklearn} `{ST : Storage}.

Lemma evaluate_model_some_obs (plot : PyVal) (s : MlModel) (w : World) (v : Series) :
  y_pred s = Some v ->
  (evaluate_model plot (s, w)).1 = (report_of plot (y_test s) v).1
  /\ y_pred (evaluate_model plot (s, w)).2.1 = Some v
  /\ w_out (evaluate_model plot (s, w)).2.2 = w_out w ++ (report_of plot (y_test s) v).2
  /\ w_rng (evaluate_model plot (s, w)).2.2 = w_rng w.
Proof.
  intros Hv. rewrite (evaluate_model_some _ _ _ v Hv).
  by destruct (report_of _ _ _) as [[r|e] evs].
Qed.

Lemma report_of_plot (p q : PyVal) (y_true v : Series) :
  is_True p = is_True q -> report_of p y_true v = report_of q y_true v.
Proof. intros Hpq. unfold report_of. by rewrite Hpq. Qed.

(** [evaluate_model] looks at its flag through the test [plot is True]
    and nowhere else. *)
Lemma evaluate_model_plot (p q : PyVal) (st : MlModel * World) :
  is_True p = is_True q -> evaluate_model p st = evaluate_model q st.
Proof.
  intros Hpq. destruct st as [s w]. destruct (y_pred s) as [v|] eqn:Hv.
  - rewrite !(evaluate_model_some _ _ _ v Hv). by rewrite (report_of_plot p q).
  - rewrite !(evaluate_model_none _ _ _ Hv).
    destruct (estimator_predict _ _ _) as [[v|e] g]; [|done]. cbv zeta.
    rewrite !(evaluate_model_some _ _ _ v) by done. by rewrite (report_of_plot p q).
Qed.

End Evaluate.

(** On the instance the constructor builds, [y_pred] is empty: the call
    emits the warning, and then the estimator, which was never fitted,
    raises; no report is returned and [y_pred] stays empty. *)
Lemma evaluate_model_fresh_raises :
  Toy.fresh = (Returns Toy.fresh_model, Toy.world 0)
  /\ y_pred Toy.fresh_model = None
  /\ call_evaluate_model [] [] (Toy.fresh_model, Toy.world 0)
     = (Raises (NotFittedError Toy.not_fitted_msg),
        (Toy.fresh_model,
         emit (Warn "No data was loaded. Prediction will be done with test data.")
              (Toy.world 0))).
Proof. split; [exact toy_fresh|]. split; vm_compute; reflexivity. Qed.

(** ** The keyword of [evaluate_model] *)

Section PlotFlag.
Context `{SK : Sklearn} `{ST : Storage}.

Lemma unexpected_keyword (kw : dict) :
  (exists k, k ∈ dict_keys kw /\ k <> "plot") ->
  exists k l, filter (fun k => negb (String.eqb k "plot")) (dict_keys kw) = k :: l.
Proof.
  intros (k & Hin & Hne).
  assert (Hk : k ∈ filter (fun k => negb (String.eqb k "plot")) (dict_keys kw)).
  { apply list_elem_of_filter. split; [|done].
    apply String.eqb_neq in Hne. by rewrite Hne. }
  destruct (filter _ _) as [|k' l]; [by apply elem_of_nil in Hk|]. by exists k', l.
Qed.

(** C3, as the code has it.  [evaluate_model] declares one keyword,
    [plot], and never looks at its type.  A call passing any other
    keyword, such as [show=2] in the tests, raises [TypeError] before the
    body runs, and so does a call passing a positional argument; the
    instance and the world are what they were.  A call passing [plot]
    with a value that is not the object [True] is the call without
    arguments: the same result or exception, the same instance and
    world afterwards.  A call passing the object [True] is the call the
    flag is meant for.  When the predictions are stored and the value is
    not the object [True], the call answers what the report function
    answers for them. *)
Theorem evaluate_model_keyword (st : MlModel * World) :
  (forall kw, (exists k, k ∈ dict_keys kw /\ k <> "plot") ->
     exists msg, call_evaluate_model [] kw st = (Raises (TypeError msg), st))
  /\ (forall a args kw,
     exists msg, call_evaluate_model (a :: args) kw st = (Raises (TypeError msg), st))
  /\ (forall p, is_True p = false ->
     call_evaluate_model [] [("plot", p)] st = call_evaluate_model [] [] st)
  /\ (forall p, is_True p = true ->
     call_evaluate_model [] [("plot", p)] st
     = call_evaluate_model [] [("plot", PyBool true)] st)
  /\ (forall p v, y_pred st.1 = Some v -> is_True p = false ->
     (call_evaluate_model [] [("plot", p)] st).1
       = classification_report_dict (y_test st.1) v).
Proof.
  split; [|split; [|split; [|split]]].
  - intros kw Hkw. destruct (unexpected_keyword kw Hkw) as (k & l & Hf).
    unfold call_evaluate_model. rewrite Hf. by eexists.
  - intros a args kw. by eexists.
  - intros p Hp. by apply evaluate_model_plot.
  - intros p Hp. by apply evaluate_model_plot.
  - intros p v Hv Hp. destruct st as [s w]. simpl in Hv.
    change (call_evaluate_model [] [("plot", p)] (s, w)) with (evaluate_model p (s, w)).
    destruct (evaluate_model_some_obs p s w v Hv) as (-> & _).
    unfold report_of. by rewrite Hp.
Qed.

End PlotFlag.

(** C3 as stated fails: the integer 2 as [plot] on a fitted instance
    raises nothing, and the report is returned. *)
Lemma evaluate_model_accepts_non_boolean :
  (forall b, PyInt 2 <> PyBool b)
  /\ (call_evaluate_model [] [("plot", PyInt 2)] (Toy.fitted_model, Toy.fitted_world)).1
     = Returns [(PyInt 0, PyInt 1)].
Proof. split; [done|]. vm_compute. reflexivity. Qed.

Lemma evaluate_model_keyword_witness :
  (exists msg,
     call_evaluate_model [] [("show", PyInt 2)] (Toy.fitted_model, Toy.fitted_world)
     = (Raises (TypeError msg), (Toy.fitted_model, Toy.fitted_world)))
  /\ call_evaluate_model [] [("plot", PyInt 2)] (Toy.fresh_model, Toy.world 0)
     = call_evaluate_model [] [] (Toy.fresh_model, Toy.world 0)
  /\ (call_evaluate_model [] [("plot", PyStr "yes")] (Toy.fitted_model, Toy.fitted_world)).1
     = Returns [(PyInt 0, PyInt 1)].
Proof.
  destruct (evaluate_model_keyword (Toy.fitted_model, Toy.fitted_world))
    as (Hshow & _ & _ & _ & Hplot).
  destruct (evaluate_model_keyword (Toy.fresh_model, Toy.world 0))
    as (_ & _ & Hsame & _ & _).
  split; [|split].
  - apply Hshow. exists "show". split; [apply list_elem_of_here|done].
  - exact (Hsame (PyInt 2) eq_refl).
  - exact (Hplot (PyStr "yes") [PyInt 1] eq_refl eq_refl).
Defined.

(** ** [predict]: the value returned and the value kept *)

Section PredictTwice.
Context `{SK : Sklearn} `{ST : Storage}.

Lemma estimator_predict_deterministic (m : Estimator) (data : Data) (g1 g2 : Rng) :
  predict_deterministic ->
  (estimator_predict m data g1).1 = (estimator_predict m data g2).1.
Proof. intros Hdet. apply Hdet. Qed.

(** C9.  When the estimator's [predict] is a function of the estimator
    and the data, the vector [predict] returns is the vector it has
    stored in [last_prediction], although the two come from two calls on
    the estimator: whenever the first call answers a vector, [predict]
    returns that vector and the instance keeps the same one. *)
Theorem predict_returns_cached (data : Data) (s : MlModel) (w : World) :
  predict_deterministic ->
  (forall v st', predict data (s, w) = (Returns v, st') ->
     last_prediction st'.1 = Some v)
  /\ (forall v g, estimator_predict (model s) data (w_rng w) = (Returns v, g) ->
     exists g', predict data (s, w)
                = (Returns v, (set_last_prediction (Some v) s, set_rng g' w))).
Proof.
  intros Hdet. split.
  - intros v st'. rewrite predict_eq.
    destruct (estimator_predict (model s) data (w_rng w)) as [[v1|e] g] eqn:H1; [|discriminate].
    pose proof (estimator_predict_deterministic (model s) data (w_rng w) g Hdet) as Heq.
    rewrite H1 in Heq. simpl in Heq.
    destruct (estimator_predict (model s) data g) as [r g']. simpl in Heq. subst r.
    by intros [= <- <-].
  - intros v g H1. rewrite predict_eq, H1.
    pose proof (estimator_predict_deterministic (model s) data (w_rng w) g Hdet) as Heq.
    rewrite H1 in Heq. simpl in Heq.
    destruct (estimator_predict (model s) data g) as [r g']. simpl in Heq. subst r.
    by exists g'.
Qed.

(** [predict] answers the same on the same instance in any two worlds. *)
Lemma predict_world_independent (data : Data) (s : MlModel) (wa wb : World) :
  predict_deterministic -> (predict data (s, wa)).1 = (predict data (s, wb)).1.
Proof.
  intros Hdet. rewrite !predict_eq.
  pose proof (estimator_predict_deterministic (model s) data (w_rng wa) (w_rng wb) Hdet) as H1.
  destruct (estimator_predict (model s) data (w_rng wa)) as [r1 ga].
  destruct (estimator_predict (model s) data (w_rng wb)) as [r2 gb].
  simpl in H1. subst r2. destruct r1 as [v|e]; [|done].
  pose proof (estimator_predict_deterministic (model s) data ga gb Hdet) as H2.
  destruct (estimator_predict (model s) data ga) as [r1 ga'].
  by destruct (estimator_predict (model s) data gb) as [r2 gb'].
Qed.

(** C10.  [predict] changes no attribute but [last_prediction], and
    prints and warns nothing: [y_pred] and [report] are what they were.
    So when [y_pred] holds the predictions on the test split, as it does
    after a [setup] that returned, an [evaluate_model] after the call
    answers what it would have answered before it, the report of those
    predictions against [y_test]. *)
Theorem predict_changes_only_last_prediction (data : Data) (s : MlModel) (w : World) :
  let st' := (predict data (s, w)).2 in
  same_but_last_prediction s st'.1
  /\ y_pred st'.1 = y_pred s
  /\ report st'.1 = report s
  /\ w_out st'.2 = w_out w
  /\ (forall plot v, y_pred s = Some v ->
      (evaluate_model plot st').1 = (report_of plot (y_test s) v).1
      /\ (evaluate_model plot st').1 = (evaluate_model plot (s, w)).1)
  /\ (forall new_kwargs st0 plot, setup new_kwargs st0 = (Returns tt, (s, w)) ->
      exists v g,
        (estimator_predict (model s) (Frame (x_test s)) g).1 = Returns v
        /\ (evaluate_model plot st').1 = (report_of plot (y_test s) v).1).
Proof.
  cbv zeta.
  assert (Hframe : same_but_last_prediction s (predict data (s, w)).2.1
                   /\ w_out (predict data (s, w)).2.2 = w_out w).
  { rewrite predict_eq. unfold same_but_last_prediction.
    destruct (estimator_predict _ _ _) as [[v|e] g]; [|by destruct s].
    by destruct (estimator_predict _ _ _) as [r g']. }
  destruct Hframe as [Hs Hout].
  destruct (predict data (s, w)) as [r [s' w']]. simpl in *.
  assert (Hy : y_pred s' = y_pred s) by (by rewrite Hs).
  assert (Ht : y_test s' = y_test s) by (by rewrite Hs).
  assert (Hev : forall plot v, y_pred s = Some v ->
                (evaluate_model plot (s', w')).1 = (report_of plot (y_test s) v).1).
  { intros plot v Hv.
    destruct (evaluate_model_some_obs plot s' w' v) as (-> & _); [congruence|].
    by rewrite Ht. }
  split; [done|]. split; [done|]. split; [by rewrite Hs|]. split; [done|]. split.
  - intros plot v Hv. split; [by apply Hev|].
    rewrite (Hev plot v Hv).
    by destruct (evaluate_model_some_obs plot s w v Hv) as (-> & _).
  - intros new_kwargs st0 plot Hsetup.
    destruct (setup_returns_y_pred new_kwargs st0 (s, w) Hsetup) as (v & g & Hv & _ & _ & Hp).
    exists v, g. split; [exact Hp|]. by apply Hev.
Qed.

End PredictTwice.

Lemma predict_returns_cached_witness :
  exists g',
    predict Toy.new_rows (Toy.fitted_model, Toy.fitted_world)
    = (Returns [PyInt 1; PyInt 1],
       (set_last_prediction (Some [PyInt 1; PyInt 1]) Toy.fitted_model,
        set_rng g' Toy.fitted_world)).
Proof.
  apply (proj2 (predict_returns_cached Toy.new_rows Toy.fitted_model Toy.fitted_world
                  toy_predict_deterministic) [PyInt 1; PyInt 1] 1%nat).
  reflexivity.
Defined.

(** Without that law the two vectors may differ: on the estimator whose
    [predict] consults the generator, one call of [predict] stores the
    labels of the first answer and returns those of the second. *)
Lemma predict_cache_differs_when_flaky :
  let out := @predict Toy.flaky_sklearn Toy.storage Toy.new_rows
               (Toy.flaky_model, Toy.flaky_world) in
  out.1 = Returns [PyNone; PyNone]
  /\ last_prediction out.2.1 = Some [PyInt 1; PyInt 1].
Proof. split; vm_compute; reflexivity. Qed.

Lemma predict_changes_only_last_prediction_witness :
  (evaluate_model (PyBool false)
     (predict Toy.new_rows (Toy.fitted_model, Toy.fitted_world)).2).1
  = (report_of (PyBool false) (y_test Toy.fitted_model) [PyInt 1]).1
  /\ (evaluate_model (PyBool false)
        (predict Toy.new_rows (Toy.fitted_model, Toy.fitted_world)).2).1
     = (evaluate_model (PyBool false) (Toy.fitted_model, Toy.fitted_world)).1.
Proof.
  destruct (predict_changes_only_last_prediction Toy.new_rows Toy.fitted_model
              Toy.fitted_world) as (_ & _ & _ & _ & H & _).
  exact (H (PyBool false) [PyInt 1] eq_refl).
Defined.

(** ** Floats *)

Lemma SFcompare_antisym (x y : float) :
  SFcompare y x = CompOpp <$> SFcompare x y.
Proof.
  destruct x as [sx|sx| |sx mx ex], y as [sy|sy| |sy my ey]; simpl;
    try reflexivity; try (by destruct sx); try (by destruct sy);
    try (by destruct sx, sy).
  destruct sx, sy; simpl; try reflexivity;
    rewrite (Z.compare_antisym ex ey); destruct (ex ?= ey)%Z; simpl; try reflexivity;
    rewrite (Pos.compare_cont_antisym mx my Eq); simpl;
    by destruct (Pos.compare_cont Eq mx my).
Qed.

Lemma float_lt_not_le (x y : float) : float_lt x y = true -> float_le y x = false.
Proof.
  unfold float_lt, float_le, SFltb, SFleb. rewrite (SFcompare_antisym x y).
  by destruct (SFcompare x y) as [[]|].
Qed.

(** The integer [math_ceil] returns is the ceiling of the exact value. *)
Lemma math_ceil_bounds (x : float) (c : Z) :
  math_ceil x = Returns c ->
  exists num den,
    float_ratio x = Some (num, den) /\ 0 < den
    /\ (c - 1) * den < num <= c * den.
Proof.
  unfold math_ceil. destruct (float_ratio x) as [[num den]|] eqn:Hr.
  - intros [= <-]. exists num, den. split; [done|].
    assert (Hden : 0 < den).
    { destruct x as [s|s| |s m e]; simpl in Hr; try discriminate.
      - injection Hr as <- <-. lia.
      - destruct (0 <=? e) eqn:He; injection Hr as <- <-; [lia|].
        apply Z.pow_pos_nonneg; lia. }
    split; [done|]. unfold ceil_ratio. simpl.
    pose proof (Z.mul_div_le (- num) den Hden).
    pose proof (Z.mul_succ_div_gt (- num) den Hden). lia.
  - by destruct x.
Qed.

(** ** Construction *)

Section Construction.
Context `{SK : Sklearn} `{ST : Storage}.


Lemma train_test_split_seeded_global (x : DataFrame) (y : Series) (ts : float)
    (seed : Z) (g : Rng) :
  (train_test_split x y ts (Some seed) g).2 = g.
Proof.
  unfold train_test_split.
  destruct (negb _); [done|]. destruct (_ || _); [done|].
  destruct (math_ceil _) as [n_test|e]; [|done].
  destruct (_ =? 0); [done|]. destruct (_ || _); [done|]. simpl.
  by destruct (rng_permutation _ _).
Qed.


Lemma preprocess_data_global (df : DataFrame) (feats tgt ts : PyVal) (g : Rng) :
  (preprocess_data df feats tgt ts g).2 = g.
Proof.
  unfold preprocess_data.
  destruct (getitem_frame _ _); [|done]. destruct (getitem_column _ _); [|done].
  destruct ts; try done. apply train_test_split_seeded_global.
Qed.

(** The constructor leaves the global generator where it was. *)
Lemma init_world (path : string) (mt tgt feats ts : PyVal) (kw : dict) (w : World) :
  (init path mt tgt feats ts kw w).2 = w.
Proof.
  unfold init.
  destruct (verify_input _ _ _ _ _ _); [|done].
  destruct (dict_get _ _); [|done]. destruct (read_csv _ _) as [df|]; [|done].
  pose proof (preprocess_data_global df feats tgt ts (w_rng w)) as Hg.
  destruct (preprocess_data _ _ _ _ _) as [[sp|e] g]; simpl in Hg; subst g;
    [destruct (initialize_model _ _)|]; by destruct w.
Qed.


End Construction.


(** The seed is what makes it so: the same split without a seed follows
    the global generator. *)
Lemma unseeded_split_follows_generator :
  (@train_test_split Toy.sklearn Toy.training [PyInt 0; PyInt 1; PyInt 0; PyInt 1; PyInt 1]
     Toy.f0_2 None 0%nat).1
  <> (@train_test_split Toy.sklearn Toy.training [PyInt 0; PyInt 1; PyInt 0; PyInt 1; PyInt 1]
        Toy.f0_2 None 1%nat).1.
Proof. vm_compute. discriminate. Qed.

(** ** The checks of the constructor *)

Section Validation.
Context `{SK : Sklearn} `{ST : Storage}.

Lemma init_verify_raises (path : string) (mt tgt feats ts : PyVal) (kw : dict)
    (w : World) (e : exn) :
  verify_input w mt path tgt feats ts = Raises e ->
  init path mt tgt feats ts kw w = (Raises e, w).
Proof. intros H. unfold init. by rewrite H. Qed.

(** C6, as the code has it.  Once the model type, the path and the
    target have passed their checks, the constructor raises [TypeError]
    when the features are not a list and when one of their elements is
    not a string.  It does not ask for an element: the empty list passes
    [__verify_input] whenever the test size does. *)
Theorem init_feature_list_check (path : string) (mt tgt feats ts : PyVal) (kw : dict)
    (w : World) :
  existsb (eq_str mt) VALID_MODELS = true ->
  isfile w path = true ->
  isinstance_str tgt = true ->
  (isinstance_list feats = false ->
     init path mt tgt feats ts kw w = (Raises (TypeError "Features must be a list."), w))
  /\ (forall l, feats = PyList l -> forallb isinstance_str l = false ->
     init path mt tgt feats ts kw w
     = (Raises (TypeError "Features must be a list of strings."), w))
  /\ (forall x, feats = PyList [] -> ts = PyFloat x ->
     float_le x float_zero || float_le float_one x = false ->
     verify_input w mt path tgt feats ts = Returns tt).
Proof.
  intros Hmt Hfile Htgt. split; [|split].
  - intros Hl. apply init_verify_raises. unfold verify_input.
    rewrite Hmt, Hfile, Htgt. simpl. by destruct feats.
  - intros l -> Hl. apply init_verify_raises. unfold verify_input.
    rewrite Hmt, Hfile, Htgt, Hl. done.
  - intros x -> -> Hx. unfold verify_input. rewrite Hmt, Hfile, Htgt, Hx. done.
Qed.

End Validation.

(** C6 as stated fails: with the empty list as features the constructor
    returns an instance, whose frames have rows and no column. *)
Lemma init_accepts_empty_features :
  exists s,
    init "training.csv" (PyStr "RandomForest") (PyStr "label") (PyList [])
         (PyFloat Toy.f0_2) [("kwargs", PyDict [])] (Toy.world 0)
    = (Returns s, Toy.world 0)
    /\ features_list s = PyList []
    /\ columns (x_train s) = [].
Proof. eexists. split; [vm_compute; reflexivity|]. split; reflexivity. Qed.

Lemma init_feature_list_check_witness :
  init "training.csv" (PyStr "RandomForest") (PyStr "label")
       (PyTuple [PyStr "slope"]) (PyFloat Toy.f0_2) [("kwargs", PyDict [])] (Toy.world 0)
  = (Raises (TypeError "Features must be a list."), Toy.world 0)
  /\ init "training.csv" (PyStr "RandomForest") (PyStr "label")
          (PyList [PyStr "slope"; PyInt 3]) (PyFloat Toy.f0_2) [("kwargs", PyDict [])]
          (Toy.world 0)
     = (Raises (TypeError "Features must be a list of strings."), Toy.world 0)
  /\ verify_input (Toy.world 0) (PyStr "RandomForest") "training.csv" (PyStr "label")
       (PyList []) (PyFloat Toy.f0_2) = Returns tt.
Proof.
  split; [|split].
  - apply (init_feature_list_check "training.csv" (PyStr "RandomForest") (PyStr "label")
             (PyTuple [PyStr "slope"]) (PyFloat Toy.f0_2) [("kwargs", PyDict [])]
             (Toy.world 0)); reflexivity.
  - eapply (init_feature_list_check "training.csv" (PyStr "RandomForest") (PyStr "label")
             (PyList [PyStr "slope"; PyInt 3]) (PyFloat Toy.f0_2) [("kwargs", PyDict [])]
             (Toy.world 0)); reflexivity.
  - eapply (init_feature_list_check "training.csv" (PyStr "RandomForest") (PyStr "label")
             (PyList []) (PyFloat Toy.f0_2) [("kwargs", PyDict [])]
             (Toy.world 0)); reflexivity.
Defined.

(** ** The split *)

Lemma labels_of_strs (names : list string) : labels_of (PyStr <$> names) = Some names.
Proof.
  induction names as [|n names IH]; [done|].
  rewrite fmap_cons. cbn [labels_of]. by rewrite IH.
Qed.

Lemma forallb_isinstance_strs (names : list string) :
  forallb isinstance_str (PyStr <$> names) = true.
Proof. by induction names. Qed.

Lemma col_index_elem (name : string) (cols : list string) :
  name ∈ cols -> exists i, col_index name cols = Some i.
Proof.
  induction cols as [|c cols IH]; intros Hin; [by apply elem_of_nil in Hin|].
  simpl. destruct (String.eqb name c) eqn:Heq; [by eexists|].
  apply elem_of_cons in Hin as [->|Hin]; [by rewrite String.eqb_refl in Heq|].
  destruct (IH Hin) as [i ->]. by eexists.
Qed.

Lemma col_indices_elem (names cols : list string) :
  Forall (fun n => n ∈ cols) names -> exists ixs, col_indices names cols = Returns ixs.
Proof.
  induction 1 as [|n names Hn _ IH]; [by eexists|].
  simpl. destruct (col_index_elem n cols Hn) as [i ->]. destruct IH as [ixs ->].
  by eexists.
Qed.

Lemma length_take_rows {A} (l : list A) (idx : list nat) :
  Forall (fun i => (i < length l)%nat) idx ->
  length (omap (fun i => l !! i) idx) = length idx.
Proof.
  induction 1 as [|i idx Hi _ IH]; [done|].
  destruct (lookup_lt_is_Some_2 l i Hi) as [a Ha].
  csimpl. rewrite Ha. csimpl. by rewrite IH.
Qed.

Section SplitSizes.
Context `{SK : Sklearn}.

Lemma permutation_bounded (g : Rng) (n : nat) :
  permutation_valid ->
  length (rng_permutation g n).1 = n
  /\ Forall (fun i => (i < n)%nat) (rng_permutation g n).1.
Proof.
  intros Hperm. specialize (Hperm g n). split.
  - rewrite Hperm. apply length_seq.
  - rewrite Hperm. apply Forall_forall. intros i Hi. apply elem_of_seq in Hi. lia.
Qed.

(** A split that goes through has the sizes scikit-learn documents. *)
Lemma train_test_split_returns (x : DataFrame) (y : Series) (ts : float)
    (random_state : option Z) (g : Rng) (n_test : Z) :
  permutation_valid ->
  length y = length (rows x) ->
  float_le ts float_zero || float_le float_one ts = false ->
  math_ceil (float_mul ts (float_of_Z (Z.of_nat (length (rows x))))) = Returns n_test ->
  0 < n_test < Z.of_nat (length (rows x)) ->
  exists sp,
    (train_test_split x y ts random_state g).1 = Returns sp
    /\ length (rows (sp_x_test sp)) = Z.to_nat n_test
    /\ length (rows (sp_x_train sp)) = (length (rows x) - Z.to_nat n_test)%nat
    /\ length (sp_y_test sp) = Z.to_nat n_test
    /\ length (sp_y_train sp) = (length (rows x) - Z.to_nat n_test)%nat.
Proof.
  intros Hperm Hlen Hts Hceil Hrange. unfold train_test_split.
  rewrite Hlen, Nat.eqb_refl, Hts, Hceil. simpl.
  destruct (Z.eqb_spec (Z.of_nat (length (rows x)) - n_test) 0) as [|_]; [lia|].
  rewrite (proj2 (Z.leb_gt n_test 0)) by lia.
  rewrite (proj2 (Z.leb_gt (Z.of_nat (length (rows x))) n_test)) by lia.
  rewrite (proj2 (Z.leb_gt (Z.of_nat (length (rows x)) - n_test) 0)) by lia.
  rewrite (proj2 (Z.leb_gt (Z.of_nat (length (rows x)))
                    (Z.of_nat (length (rows x)) - n_test))) by lia.
  cbn [orb].
  destruct (permutation_bounded (check_random_state random_state g) (length (rows x)) Hperm)
    as [Hl Hb].
  destruct (rng_permutation _ _) as [perm rng']. simpl in Hl, Hb.
  eexists. split; [reflexivity|]. simpl. unfold take_series.
  rewrite !length_take_rows; rewrite ?Hlen; eauto using Forall_take, Forall_drop.
  rewrite !length_take, !length_drop, Hl. lia.
Qed.

End SplitSizes.

Section ConstructionSucceeds.
Context `{SK : Sklearn} `{ST : Storage}.

Lemma read_csv_isfile (w : World) (path : string) (df : DataFrame) :
  read_csv w path = Returns df -> isfile w path = true.
Proof.
  unfold read_csv, isfile. destruct (w_fs w !! path) eqn:Hl; [|discriminate].
  intros _. apply bool_decide_eq_true. by eexists.
Qed.

(** C2, as the code has it.  Take a model type among the supported ones,
    a path whose file parses to a table, a target and features that are
    columns of that table, a float test fraction strictly between 0 and
    1, and hyperparameters, passed as the entry ['kwargs'], that the
    estimator's constructor accepts.  When the number of test rows
    [ceil(test_size * n)], the product being the float one, is neither 0
    nor all [n] rows, the constructor returns an instance: its train and
    test parts have [n] rows in all, the test part has that number of
    rows, which is less than one row above the product, and labels and
    features have the same number of rows on either side. *)
Theorem init_returns_split (path : string) (mt : PyVal) (tgt : string)
    (feats : list string) (x : float) (kw d : dict) (w : World) (df : DataFrame)
    (n_test : Z) :
  permutation_valid ->
  existsb (eq_str mt) VALID_MODELS = true ->
  float_lt float_zero x = true ->
  float_lt x float_one = true ->
  dict_get "kwargs" kw = Some (PyDict d) ->
  (exists m, initialize_model mt (PyDict d) = Returns m) ->
  read_csv w path = Returns df ->
  tgt ∈ columns df ->
  Forall (fun f => f ∈ columns df) feats ->
  math_ceil (float_mul x (float_of_Z (Z.of_nat (length (rows df))))) = Returns n_test ->
  0 < n_test < Z.of_nat (length (rows df)) ->
  exists s,
    init path mt (PyStr tgt) (PyList (PyStr <$> feats)) (PyFloat x) kw w = (Returns s, w)
    /\ (length (rows (x_train s)) + length (rows (x_test s)) = length (rows df))%nat
    /\ length (rows (x_test s)) = Z.to_nat n_test
    /\ length (y_train s) = length (rows (x_train s))
    /\ length (y_test s) = length (rows (x_test s))
    /\ exists num den,
         float_ratio (float_mul x (float_of_Z (Z.of_nat (length (rows df)))))
         = Some (num, den)
         /\ 0 < den /\ (n_test - 1) * den < num <= n_test * den.
Proof.
  intros Hperm Hmt Hlo Hhi Hkw [m Hm] Hread Htgt Hfeats Hceil Hrange.
  assert (Hv : verify_input w mt path (PyStr tgt) (PyList (PyStr <$> feats)) (PyFloat x)
               = Returns tt).
  { unfold verify_input. rewrite Hmt, (read_csv_isfile _ _ _ Hread). simpl.
    rewrite forallb_isinstance_strs. simpl.
    by rewrite (float_lt_not_le _ _ Hlo), (float_lt_not_le _ _ Hhi). }
  destruct (col_indices_elem feats (columns df) Hfeats) as [ixs Hixs].
  destruct (col_index_elem tgt (columns df) Htgt) as [i Hi].
  set (X := {| columns := feats; rows := (fun r => cell r <$> ixs) <$> rows df |}).
  set (Y := (fun r => cell r i) <$> rows df).
  assert (HX : length (rows X) = length (rows df)) by apply length_fmap.
  destruct (train_test_split_returns X Y x (Some 42) (w_rng w) n_test) as
    (sp & Hsp & Hxt & Hxr & Hyt & Hyr); try done.
  { unfold Y. by rewrite HX, length_fmap. }
  { by rewrite (float_lt_not_le _ _ Hlo), (float_lt_not_le _ _ Hhi). }
  { by rewrite HX. }
  { by rewrite HX. }
  assert (Hinit : (init path mt (PyStr tgt) (PyList (PyStr <$> feats)) (PyFloat x) kw w).1
                  = Returns {| filepath := path; type := mt; target_column := PyStr tgt;
                               features_list := PyList (PyStr <$> feats);
                               test_size := PyFloat x; kwargs := d; dataset := df;
                               x_train := sp_x_train sp; x_test := sp_x_test sp;
                               y_train := sp_y_train sp; y_test := sp_y_test sp;
                               model := m; y_pred := None; report := None;
                               last_prediction := None |}).
  { unfold init. rewrite Hv, Hkw, Hread.
    unfold preprocess_data, getitem_frame, getitem_column.
    rewrite labels_of_strs, Hixs, Hi. fold X Y.
    destruct (train_test_split X Y x (Some 42) (w_rng w)) as [r g]. simpl in Hsp. subst r.
    by rewrite Hm. }
  eexists. split.
  - rewrite (surjective_pairing (init _ _ _ _ _ _ _)), Hinit. f_equal. apply init_world.
  - simpl. rewrite Hxt, Hxr, Hyt, Hyr, HX. repeat split; try lia.
    by apply math_ceil_bounds.
Qed.

End ConstructionSucceeds.

(** C2 as stated fails: every input named by the claim is valid, the
    file exists and parses, and the constructor raises [KeyError]
    because the table has no column named by the target. *)
Lemma init_fails_without_target_column :
  existsb (eq_str (PyStr "RandomForest")) VALID_MODELS = true
  /\ isfile (Toy.world 0) "unlabelled.csv" = true
  /\ float_lt float_zero Toy.f0_2 = true
  /\ float_lt Toy.f0_2 float_one = true
  /\ init "unlabelled.csv" (PyStr "RandomForest") (PyStr "label")
          (PyList (PyStr <$> ["slope"; "clay"])) (PyFloat Toy.f0_2)
          [("kwargs", PyDict [])] (Toy.world 0)
     = (Raises (KeyError "label"), Toy.world 0).
Proof. repeat split; vm_compute; reflexivity. Qed.

(** It fails as well on a table too short for the fraction: with two
    rows and a test fraction of 0.9 both rows go to the test part and
    the split raises. *)
Lemma init_fails_on_short_table :
  init "tiny.csv" (PyStr "RandomForest") (PyStr "label")
       (PyList (PyStr <$> ["slope"; "clay"])) (PyFloat Toy.f0_9)
       [("kwargs", PyDict [])] (Toy.world 0)
  = (Raises (ValueError "the resulting train set will be empty"), Toy.world 0).
Proof. vm_compute. reflexivity. Qed.

(** And it fails when the call passes no entry ['kwargs']. *)
Lemma init_fails_without_kwargs_entry :
  init "training.csv" (PyStr "RandomForest") (PyStr "label")
       (PyList (PyStr <$> ["slope"; "clay"])) (PyFloat Toy.f0_2) [] (Toy.world 0)
  = (Raises (KeyError "kwargs"), Toy.world 0).
Proof. vm_compute. reflexivity. Qed.

Lemma init_returns_split_witness :
  exists s,
    init "training.csv" (PyStr "SVM") (PyStr "label")
         (PyList (PyStr <$> ["slope"; "clay"])) (PyFloat Toy.f0_2)
         [("kwargs", PyDict [("C", PyInt 1)])] (Toy.world 0)
    = (Returns s, Toy.world 0)
    /\ (length (rows (x_train s)) + length (rows (x_test s)) = 5)%nat
    /\ length (rows (x_test s)) = 1%nat.
Proof.
  destruct (init_returns_split "training.csv" (PyStr "SVM") "label" ["slope"; "clay"]
              Toy.f0_2 [("kwargs", PyDict [("C", PyInt 1)])] [("C", PyInt 1)]
              (Toy.world 0) Toy.training 1)
    as (s & Hs & Hsum & Htest & _).
  - exact toy_permutation_valid.
  - reflexivity.
  - reflexivity.
  - reflexivity.
  - reflexivity.
  - eexists. reflexivity.
  - reflexivity.
  - apply list_elem_of_In. simpl. tauto.
  - repeat constructor.
  - vm_compute. reflexivity.
  - simpl. lia.
  - exists s. split; [exact Hs|]. split; [exact Hsum | exact Htest].
Defined.

(** * Further properties *)

(** ** What the constructor has checked and stored *)

Lemma existsb_eq_str (v : PyVal) (names : list string) :
  existsb (eq_str v) names = true <-> exists name, name ∈ names /\ v = PyStr name.
Proof.
  rewrite existsb_exists. split.
  - intros (name & Hin & Heq). exists name. split; [by apply list_elem_of_In|].
    destruct v; try discriminate. simpl in Heq. by apply String.eqb_eq in Heq as ->.
  - intros (name & Hin & ->). exists name. split; [by apply list_elem_of_In|].
    simpl. apply String.eqb_refl.
Qed.

Lemma forallb_isinstance_str_inv (l : list PyVal) :
  forallb isinstance_str l = true -> exists names, l = PyStr <$> names.
Proof.
  induction l as [|v l IH]; intros H; [by exists []|].
  simpl in H. apply andb_prop in H as [Hv Hl]. destruct (IH Hl) as [names ->].
  destruct v; try discriminate. by eexists (_ :: names).
Qed.

Section Inversion.
Context `{SK : Sklearn} `{ST : Storage}.

Lemma verify_input_returns (w : World) (mt : PyVal) (path : string) (tgt feats ts : PyVal) :
  verify_input w mt path tgt feats ts = Returns tt <->
  existsb (eq_str mt) VALID_MODELS = true
  /\ isfile w path = true
  /\ isinstance_str tgt = true
  /\ (exists l, feats = PyList l /\ forallb isinstance_str l = true)
  /\ (exists x, ts = PyFloat x /\ float_le x float_zero = false
                /\ float_le float_one x = false).
Proof.
  unfold verify_input. split.
  - destruct (existsb _ _); [|discriminate]. destruct (isfile _ _); [|discriminate].
    destruct (isinstance_str tgt); [|discriminate]. simpl.
    destruct feats as [| | | | |l| |]; try discriminate.
    destruct (forallb _ l) eqn:Hl; [|discriminate]. simpl.
    destruct ts as [| | |x| | | |]; try discriminate.
    destruct (float_le x float_zero) eqn:H0; [discriminate|].
    destruct (float_le float_one x) eqn:H1; [discriminate|]. intros _.
    split; [done|]. split; [done|]. split; [done|].
    split; [by exists l | by exists x].
  - intros (-> & -> & -> & (l & -> & ->) & (x & -> & -> & ->)). done.
Qed.

(** The steps a construction that returns has gone through. *)
Lemma init_inv (path : string) (mt tgt feats ts : PyVal) (kw : dict)
    (w w' : World) (s : MlModel) :
  init path mt tgt feats ts kw w = (Returns s, w') ->
  exists d df sp m g,
    verify_input w mt path tgt feats ts = Returns tt
    /\ dict_get "kwargs" kw = Some (PyDict d)
    /\ read_csv w path = Returns df
    /\ preprocess_data df feats tgt ts (w_rng w) = (Returns sp, g)
    /\ initialize_model mt (PyDict d) = Returns m
    /\ s = {| filepath := path; type := mt; target_column := tgt;
              features_list := feats; test_size := ts; kwargs := d;
              dataset := df; x_train := sp_x_train sp; x_test := sp_x_test sp;
              y_train := sp_y_train sp; y_test := sp_y_test sp; model := m;
              y_pred := None; report := None; last_prediction := None |}.
Proof.
  unfold init.
  destruct (verify_input _ _ _ _ _ _) as [[]|]; [|discriminate].
  destruct (dict_get _ _) as [self_kwargs|]; [|discriminate].
  destruct (read_csv _ _) as [df|]; [|discriminate].
  destruct (preprocess_data _ _ _ _ _) as [[sp|] g] eqn:Hsp; [|discriminate].
  destruct (initialize_model _ _) as [m|] eqn:Hm; [|discriminate].
  intros [= <- <-].
  assert (exists d, self_kwargs = PyDict d) as [d ->].
  { unfold initialize_model in Hm.
    destruct self_kwargs; try (by eexists);
      repeat (match type of Hm with context [if ?b then _ else _] => destruct b end);
      discriminate. }
  by exists d, df, sp, m, g.
Qed.

(** X1.  An instance the constructor returns carries the arguments of
    the call, and they are what [__verify_input] asks for: the type is
    one of the supported names, the path was a file, the target is a
    string, the features are a list of strings, the test size is a float
    that is neither [<= 0] nor [>= 1].  Its hyperparameters are the
    dictionary passed as ['kwargs'] and its dataset is what the file
    parses to. *)
Theorem init_returns_validated (path : string) (mt tgt feats ts : PyVal) (kw : dict)
    (w w' : World) (s : MlModel) :
  init path mt tgt feats ts kw w = (Returns s, w') ->
  (filepath s = path /\ type s = mt /\ target_column s = tgt
   /\ features_list s = feats /\ test_size s = ts)
  /\ (exists name, name ∈ VALID_MODELS /\ mt = PyStr name)
  /\ isfile w path = true
  /\ (exists t, tgt = PyStr t)
  /\ (exists names, feats = PyList (PyStr <$> names))
  /\ (exists x, ts = PyFloat x /\ float_le x float_zero = false
                /\ float_le float_one x = false)
  /\ dict_get "kwargs" kw = Some (PyDict (kwargs s))
  /\ read_csv w path = Returns (dataset s).
Proof.
  intros Hinit. apply init_inv in Hinit as (d & df & sp & m & g & Hv & Hkw & Hread & _ & _ & ->).
  apply verify_input_returns in Hv as (Hmt & Hfile & Htgt & (l & -> & Hl) & Hts).
  simpl. split; [done|]. split; [by apply existsb_eq_str|]. split; [done|].
  split; [destruct tgt; try discriminate; by eexists|].
  split; [destruct (forallb_isinstance_str_inv l Hl) as [names ->]; by eexists|].
  done.
Qed.

End Inversion.

Lemma init_returns_validated_witness :
  (exists name, name ∈ VALID_MODELS /\ type Toy.fresh_model = PyStr name)
  /\ (exists names, features_list Toy.fresh_model = PyList (PyStr <$> names))
  /\ read_csv (Toy.world 0) "training.csv" = Returns (dataset Toy.fresh_model).
Proof.
  destruct (init_returns_validated "training.csv" (PyStr "RandomForest") (PyStr "label")
              Toy.features (PyFloat Toy.f0_2) [("kwargs", PyDict [])] (Toy.world 0)
              (Toy.world 0) Toy.fresh_model toy_fresh)
    as (_ & Hmt & _ & _ & Hfeats & _ & _ & Hread).
  split; [exact Hmt|]. split; [exact Hfeats | exact Hread].
Defined.

(** ** The test size and NaN *)

Lemma SFcompare_zero_none (x : float) :
  SFcompare x float_zero = None -> x = S754_nan.
Proof. destruct x as [s|s| |s m e]; try done; by destruct s. Qed.

Lemma float_le_nan (x : float) :
  float_le S754_nan x = false /\ float_le x S754_nan = false.
Proof. split; [done|]. by destruct x. Qed.

(** The floats the two comparisons of [__verify_input] let through. *)
Lemma test_size_accepted (x : float) :
  float_le x float_zero = false /\ float_le float_one x = false <->
  x = S754_nan \/ (float_lt float_zero x = true /\ float_lt x float_one = true).
Proof.
  split.
  - intros [H0 H1]. unfold float_le, float_lt, SFleb, SFltb in *.
    rewrite (SFcompare_antisym x float_zero), (SFcompare_antisym float_one x).
    destruct (SFcompare x float_zero) as [[]|] eqn:Hx0; try discriminate.
    + destruct (SFcompare float_one x) as [[]|] eqn:H1x; try discriminate; [by right|].
      left. destruct x as [s|s| |s m e]; try done; by destruct s.
    + left. by apply SFcompare_zero_none.
  - intros [->|[H0 H1]].
    + split; [apply (float_le_nan float_zero) | apply (float_le_nan float_one)].
    + split; by apply float_lt_not_le.
Qed.

Section NaN.
Context `{SK : Sklearn} `{ST : Storage}.

Lemma train_test_split_nan (x : DataFrame) (y : Series) (random_state : option Z)
    (g : Rng) :
  exists e, (train_test_split x y S754_nan random_state g).1 = Raises e.
Proof.
  unfold train_test_split. destruct (negb _); [by eexists|]. by eexists.
Qed.

(** X2.  The range check of [__verify_input] is written with [<=] and
    [>=], which are both false on NaN: among the floats it accepts those
    strictly between 0 and 1, and NaN.  With NaN as test size the
    arguments pass the validation when the others do, and the
    construction still never returns an instance: the split raises. *)
Theorem init_test_size_nan (path : string) (mt tgt : PyVal) (l : list PyVal) (kw : dict)
    (w : World) :
  (forall x,
     existsb (eq_str mt) VALID_MODELS = true -> isfile w path = true ->
     isinstance_str tgt = true -> forallb isinstance_str l = true ->
     (verify_input w mt path tgt (PyList l) (PyFloat x) = Returns tt <->
      x = S754_nan \/ (float_lt float_zero x = true /\ float_lt x float_one = true)))
  /\ exists e, (init path mt tgt (PyList l) (PyFloat S754_nan) kw w).1 = Raises e.
Proof.
  split.
  - intros x Hmt Hfile Htgt Hl. rewrite verify_input_returns, <- test_size_accepted.
    split.
    + intros (_ & _ & _ & _ & (x' & [= <-] & H0 & H1)). done.
    + intros [H0 H1]. repeat split; try done; [by exists l | by exists x].
  - unfold init. destruct (verify_input _ _ _ _ _ _); [|by eexists].
    destruct (dict_get _ _); [|by eexists]. destruct (read_csv _ _) as [df|]; [|by eexists].
    unfold preprocess_data.
    destruct (getitem_frame _ _) as [X|]; [|by eexists].
    destruct (getitem_column _ _) as [Y|]; [|by eexists].
    destruct (train_test_split_nan X Y (Some 42) (w_rng w)) as [e He].
    destruct (train_test_split _ _ _ _ _) as [r g]. simpl in He. subst r. by eexists.
Qed.

End NaN.

Lemma init_test_size_nan_witness :
  verify_input (Toy.world 0) (PyStr "SVM") "training.csv" (PyStr "label")
    (PyList [PyStr "slope"]) (PyFloat S754_nan) = Returns tt.
Proof.
  apply (proj1 (init_test_size_nan "training.csv" (PyStr "SVM") (PyStr "label")
                  [PyStr "slope"] [] (Toy.world 0)) S754_nan); try reflexivity.
  by left.
Defined.

(** ** The estimator the instance holds *)

Section Dispatch.
Context `{SK : Sklearn} `{ST : Storage}.

Lemma class_of_type_valid (mt : PyVal) :
  existsb (eq_str mt) VALID_MODELS = true -> exists cls, class_of_type mt = Some cls.
Proof.
  intros H. apply existsb_eq_str in H as (name & Hin & ->).
  unfold VALID_MODELS in Hin.
  repeat (apply elem_of_cons in Hin as [->|Hin]; [by eexists|]).
  by apply elem_of_nil in Hin.
Qed.

Lemma initialize_model_class (ty kw : PyVal) :
  match class_of_type ty with
  | Some cls =>
      initialize_model ty kw =
      match kw with
      | PyDict d => new_estimator cls d
      | _ => Raises (TypeError "argument after ** must be a mapping")
      end
  | None => initialize_model ty kw = Raises (ValueError "Model type not supported.")
  end.
Proof.
  unfold class_of_type, initialize_model.
  destruct (eq_str ty "RandomForest"); [done|].
  destruct (eq_str ty "SVM"); [done|].
  by destruct (eq_str ty "GBM").
Qed.

Lemma new_estimator_inv (cls : EstimatorClass) (d : dict) :
  match new_estimator cls d with
  | Returns m =>
      m = {| est_class := cls; est_params := d; est_fitted := None |}
      /\ Forall (fun k => k ∈ sk_init_params cls) (dict_keys d)
  | Raises e =>
      exists k, e = TypeError ("__init__() got an unexpected keyword argument '" +:+ k +:+ "'")
                /\ k ∈ dict_keys d /\ k ∉ sk_init_params cls
  end.
Proof.
  unfold new_estimator.
  destruct (filter _ _) as [|k ks] eqn:Hf.
  - split; [done|]. apply Forall_forall. intros k Hk.
    destruct (str_in k (sk_init_params cls)) eqn:Hin; [by apply str_in_spec|].
    assert (Hkf : k ∈ filter (fun k => negb (str_in k (sk_init_params cls))) (dict_keys d)).
    { apply list_elem_of_filter. by rewrite Hin. }
    rewrite Hf in Hkf. by apply elem_of_nil in Hkf.
  - exists k. split; [done|].
    assert (Hkf : k ∈ filter (fun k => negb (str_in k (sk_init_params cls))) (dict_keys d))
      by (rewrite Hf; apply list_elem_of_here).
    apply list_elem_of_filter in Hkf as [Hneg Hin]. split; [done|].
    apply str_in_false. by destruct (str_in k _).
Qed.

(** X3.  For a model type that [__verify_input] accepts,
    [__initialize_model] never reaches its closing [raise ValueError]:
    it calls the constructor of the class the type names.  What it
    returns is an estimator of that class, not fitted, holding the
    hyperparameters as they were passed, all of them constructor
    parameters; what it raises is a [TypeError]. *)
Theorem initialize_model_dispatch (mt kw : PyVal) :
  existsb (eq_str mt) VALID_MODELS = true ->
  exists cls,
    class_of_type mt = Some cls
    /\ (forall d, kw = PyDict d -> initialize_model mt kw = new_estimator cls d)
    /\ (forall m, initialize_model mt kw = Returns m ->
          est_class m = cls /\ kw = PyDict (est_params m) /\ est_fitted m = None
          /\ Forall (fun k => k ∈ sk_init_params cls) (dict_keys (est_params m)))
    /\ (forall e, initialize_model mt kw = Raises e -> exists msg, e = TypeError msg).
Proof.
  intros Hmt. destruct (class_of_type_valid mt Hmt) as [cls Hcls]. exists cls.
  pose proof (initialize_model_class mt kw) as Hinit. rewrite Hcls in Hinit.
  split; [done|]. split; [by intros d ->|]. rewrite Hinit. split.
  - intros m. destruct kw; try discriminate.
    pose proof (new_estimator_inv cls d) as Hnew. intros Hm. rewrite Hm in Hnew.
    by destruct Hnew as [-> Hkeys].
  - intros e. destruct kw; try (intros [= <-]; by eexists).
    pose proof (new_estimator_inv cls d) as Hnew. intros Hm. rewrite Hm in Hnew.
    destruct Hnew as (k & -> & _). by eexists.
Qed.

End Dispatch.

Lemma initialize_model_dispatch_witness :
  exists cls,
    class_of_type (PyStr "GBM") = Some cls
    /\ initialize_model (PyStr "GBM") (PyDict [("max_depth", PyInt 4)])
       = @new_estimator Toy.sklearn cls [("max_depth", PyInt 4)].
Proof.
  destruct (@initialize_model_dispatch Toy.sklearn (PyStr "GBM")
              (PyDict [("max_depth", PyInt 4)]) eq_refl) as (cls & Hcls & Hd & _).
  exists cls. split; [exact Hcls|]. by apply Hd.
Defined.

(** ** What no method touches *)

Section Frames.
Context `{SK : Sklearn} `{ST : Storage}.

Lemma same_split_refl (s : MlModel) : same_split s s.
Proof. by repeat split. Qed.

Lemma same_split_trans (s1 s2 s3 : MlModel) :
  same_split s1 s2 -> same_split s2 s3 -> same_split s1 s3.
Proof.
  unfold same_split. intros (?&?&?&?&?&?&?&?&?&?) (?&?&?&?&?&?&?&?&?&?).
  repeat split; congruence.
Qed.

Lemma estimator_fit_class (m : Estimator) (x : DataFrame) (y : Series) (g : Rng) :
  est_class (estimator_fit m x y g).1.2 = est_class m
  /\ est_params (estimator_fit m x y g).1.2 = est_params m.
Proof. unfold estimator_fit. by destruct (sk_fit _ _ _ _ _) as [[f|e] g']. Qed.

(** The state [setup] leaves, branch by branch. *)
Lemma setup_eq (new_kwargs : dict) (s : MlModel) (w : World) :
  setup new_kwargs (s, w) =
  match offending s new_kwargs with
  | _ :: _ =>
      (Raises (ValueError ("Invalid kwargs found: " +:+ join ", " (offending s new_kwargs))),
       (s, w))
  | [] =>
      let s1 := set_kwargs (dict_update (kwargs s) new_kwargs) s in
      match initialize_model (type s) (PyDict (kwargs s1)) with
      | Raises e => (Raises e, (s1, w))
      | Returns m =>
          let '(r, m', g) := estimator_fit m (x_train s) (y_train s) (w_rng w) in
          let s2 := set_model m' s1 in
          match r with
          | Raises e => (Raises e, (s2, set_rng g w))
          | Returns _ =>
              match estimator_predict m' (Frame (x_test s)) g with
              | (Raises e, g') => (Raises e, (s2, set_rng g' w))
              | (Returns v, g') => (Returns tt, (set_y_pred (Some v) s2, set_rng g' w))
              end
          end
      end
  end.
Proof.
  unfold setup, bind, self, assign, lift, model_fit, model_predict, raise, offending. simpl.
  destruct (filter _ _); [|done].
  destruct (initialize_model _ _) as [m|e]; [|done]. simpl.
  destruct (estimator_fit _ _ _ _) as [[[[]|e] m'] g]; [|done]. simpl.
  by destruct (estimator_predict _ _ _) as [[v|e] g'].
Qed.

Lemma setup_frame (new_kwargs : dict) (st : MlModel * World) :
  same_split st.1 (setup new_kwargs st).2.1
  /\ w_fs (setup new_kwargs st).2.2 = w_fs st.2
  /\ w_out (setup new_kwargs st).2.2 = w_out st.2
  /\ report (setup new_kwargs st).2.1 = report st.1
  /\ last_prediction (setup new_kwargs st).2.1 = last_prediction st.1.
Proof.
  destruct st as [s w]. rewrite setup_eq. destruct (offending _ _).
  2:{ split; [apply same_split_refl | done]. }
  cbv zeta. destruct (initialize_model _ _) as [m|e]; [|by repeat split].
  destruct (estimator_fit _ _ _ _) as [[[[]|e] m'] g]; [|by repeat split].
  by destruct (estimator_predict _ _ _) as [[v|e] g']; repeat split.
Qed.

Lemma predict_frame (data : Data) (st : MlModel * World) :
  same_split st.1 (predict data st).2.1
  /\ w_fs (predict data st).2.2 = w_fs st.2
  /\ w_out (predict data st).2.2 = w_out st.2
  /\ kwargs (predict data st).2.1 = kwargs st.1
  /\ y_pred (predict data st).2.1 = y_pred st.1.
Proof.
  destruct st as [s w]. rewrite predict_eq.
  destruct (estimator_predict _ _ _) as [[v|e] g]; [|by repeat split].
  by destruct (estimator_predict _ _ _) as [r g']; repeat split.
Qed.

Lemma evaluate_model_frame (plot : PyVal) (st : MlModel * World) :
  same_split st.1 (evaluate_model plot st).2.1
  /\ w_fs (evaluate_model plot st).2.2 = w_fs st.2
  /\ kwargs (evaluate_model plot st).2.1 = kwargs st.1.
Proof.
  destruct st as [s w]. destruct (y_pred s) as [v|] eqn:Hv.
  - rewrite (evaluate_model_some _ _ _ v Hv).
    by destruct (report_of _ _ _) as [[r|e] evs]; repeat split.
  - rewrite (evaluate_model_none _ _ _ Hv).
    destruct (estimator_predict _ _ _) as [[v|e] g]; [|by repeat split].
    rewrite (evaluate_model_some _ _ _ v) by done.
    by destruct (report_of _ _ _) as [[r|e] evs]; repeat split.
Qed.

Lemma call_evaluate_model_frame (args : list PyVal) (kw : dict) (st : MlModel * World) :
  same_split st.1 (call_evaluate_model args kw st).2.1
  /\ w_fs (call_evaluate_model args kw st).2.2 = w_fs st.2
  /\ kwargs (call_evaluate_model args kw st).2.1 = kwargs st.1.
Proof.
  unfold call_evaluate_model.
  destruct args; [|split; [apply same_split_refl | done]].
  destruct (filter _ _); [|split; [apply same_split_refl | done]].
  apply evaluate_model_frame.
Qed.

(** A call of [setup] by keywords runs the body, or is refused by the
    call binding and changes nothing. *)
Lemma run_op_setup (st : MlModel * World) (new_kwargs : dict) :
  run_op st (OpSetup new_kwargs) = (setup new_kwargs st).2
  \/ run_op st (OpSetup new_kwargs) = st.
Proof.
  unfold run_op, call_setup. destruct (str_in "self" (dict_keys new_kwargs)); auto.
Qed.

Lemma run_op_frame (st : MlModel * World) (op : Op) :
  same_split st.1 (run_op st op).1 /\ w_fs (run_op st op).2 = w_fs st.2.
Proof.
  destruct op as [new_kwargs|data|args kw].
  2,3: simpl.
  - destruct (run_op_setup st new_kwargs) as [-> | ->];
      [|split; [apply same_split_refl | done]].
    destruct (setup_frame new_kwargs st) as (? & ? & _). done.
  - destruct (predict_frame data st) as (? & ? & _). done.
  - destruct (call_evaluate_model_frame args kw st) as (? & ? & _). done.
Qed.

Lemma run_ops_frame (ops : list Op) (st : MlModel * World) :
  same_split st.1 (run_ops ops st).1 /\ w_fs (run_ops ops st).2 = w_fs st.2.
Proof.
  revert st. induction ops as [|op ops IH]; intros st; [split; [apply same_split_refl|done]|].
  change (run_ops (op :: ops) st) with (run_ops ops (run_op st op)).
  destruct (IH (run_op st op)) as [Hs Hw]. destruct (run_op_frame st op) as [Hs' Hw'].
  split; [by eapply same_split_trans | by rewrite Hw].
Qed.

(** X6.  Whatever calls of [setup], [predict] and [evaluate_model] are
    made, with whatever arguments and whether they return or raise, the
    instance keeps the path, the type, the target, the features, the
    test size, the dataset and the four parts of the split it was
    constructed with: the file is read and split once.  In particular
    every report is computed against the same [y_test]. *)
Theorem split_is_fixed (ops : list Op) (st : MlModel * World) :
  same_split st.1 (run_ops ops st).1
  /\ forall plot v, y_pred (run_ops ops st).1 = Some v ->
       (evaluate_model plot (run_ops ops st)).1 = (report_of plot (y_test st.1) v).1.
Proof.
  destruct (run_ops_frame ops st) as [Hs _]. split; [done|].
  intros plot v Hv. destruct (run_ops ops st) as [s' w']. simpl in *.
  destruct (evaluate_model_some_obs plot s' w' v Hv) as (-> & _).
  destruct Hs as (_ & _ & _ & _ & _ & _ & _ & _ & _ & ->). done.
Qed.

End Frames.

(** ** Dictionaries *)

Lemma dict_keys_set (k k' : string) (v : PyVal) (d : dict) :
  k' ∈ dict_keys (dict_set k v d) <-> k' = k \/ k' ∈ dict_keys d.
Proof.
  unfold dict_keys. induction d as [|[k0 v0] d IH]; simpl.
  - rewrite list_elem_of_singleton. split; [by left|]. intros [|H]; [done|].
    by apply elem_of_nil in H.
  - destruct (String.eqb_spec k k0) as [->|Hne]; csimpl.
    + rewrite !elem_of_cons. tauto.
    + rewrite !elem_of_cons, IH. tauto.
Qed.

Lemma dict_keys_update (k : string) (d other : dict) :
  k ∈ dict_keys (dict_update d other) <-> k ∈ dict_keys d \/ k ∈ dict_keys other.
Proof.
  unfold dict_update. revert d. induction other as [|[k0 v0] other IH]; intros d; simpl.
  - split; [by left|]. intros [|H]; [done|]. by apply elem_of_nil in H.
  - rewrite IH, dict_keys_set. unfold dict_keys. csimpl. rewrite elem_of_cons. tauto.
Qed.

Lemma dict_get_set (k k' : string) (v : PyVal) (d : dict) :
  dict_get k (dict_set k' v d) = if String.eqb k k' then Some v else dict_get k d.
Proof.
  induction d as [|[k0 v0] d IH]; simpl; [done|].
  destruct (String.eqb_spec k' k0) as [->|Hne]; simpl.
  - by destruct (String.eqb k k0).
  - destruct (String.eqb_spec k k0) as [->|Hne'].
    + by rewrite (proj2 (String.eqb_neq k0 k')).
    + done.
Qed.

Lemma dict_get_update_other (k : string) (d other : dict) :
  k ∉ dict_keys other -> dict_get k (dict_update d other) = dict_get k d.
Proof.
  unfold dict_update. revert d. induction other as [|[k0 v0] other IH]; intros d Hk; [done|].
  unfold dict_keys in Hk. csimpl in Hk. apply not_elem_of_cons in Hk as [Hne Hk].
  simpl. rewrite IH by done. rewrite dict_get_set.
  by rewrite (proj2 (String.eqb_neq k k0)).
Qed.

Lemma dict_get_update_new (k : string) (v : PyVal) (d other : dict) :
  NoDup (dict_keys other) -> (k, v) ∈ other ->
  dict_get k (dict_update d other) = Some v.
Proof.
  unfold dict_update. revert d. induction other as [|[k0 v0] other IH]; intros d Hnd Hin.
  - by apply elem_of_nil in Hin.
  - unfold dict_keys in Hnd. csimpl in Hnd. apply NoDup_cons in Hnd as [Hk0 Hnd].
    apply elem_of_cons in Hin as [[= -> ->]|Hin]; simpl.
    + fold (dict_update (dict_set k0 v0 d) other).
      rewrite dict_get_update_other by done.
      by rewrite dict_get_set, String.eqb_refl.
    + by apply IH.
Qed.

(** ** The estimator across reconfigurations *)

Section EstimatorInvariant.
Context `{SK : Sklearn} `{ST : Storage}.

Lemma new_estimator_returns (cls : EstimatorClass) (d : dict) :
  Forall (fun k => k ∈ sk_init_params cls) (dict_keys d) ->
  new_estimator cls d = Returns {| est_class := cls; est_params := d; est_fitted := None |}.
Proof.
  intros Hall. pose proof (new_estimator_inv cls d) as Hinv.
  destruct (new_estimator cls d) as [m|e]; [by destruct Hinv as [-> _]|].
  destruct Hinv as (k & _ & Hin & Hnot). rewrite Forall_forall in Hall.
  by destruct (Hnot (Hall k Hin)).
Qed.

(** The estimator is of the class its type names and holds the
    hyperparameters of the instance, all of them constructor parameters. *)
Lemma setup_keeps_estimator (new_kwargs : dict) (s : MlModel) (w : World) :
  get_params_within_signature ->
  class_of_type (type s) = Some (est_class (model s)) ->
  est_params (model s) = kwargs s ->
  Forall (fun k => k ∈ sk_init_params (est_class (model s))) (dict_keys (kwargs s)) ->
  let s' := (setup new_kwargs (s, w)).2.1 in
  class_of_type (type s') = Some (est_class (model s'))
  /\ est_params (model s') = kwargs s'
  /\ Forall (fun k => k ∈ sk_init_params (est_class (model s'))) (dict_keys (kwargs s'))
  /\ (offending s new_kwargs = [] ->
      initialize_model (type s) (PyDict (dict_update (kwargs s) new_kwargs))
      = Returns {| est_class := est_class (model s);
                   est_params := dict_update (kwargs s) new_kwargs;
                   est_fitted := None |}).
Proof.
  intros Hlaw Hcls Hpar Hkeys. cbv zeta.
  assert (Hmerged : offending s new_kwargs = [] ->
            Forall (fun k => k ∈ sk_init_params (est_class (model s)))
                   (dict_keys (dict_update (kwargs s) new_kwargs))).
  { intros Hoff. apply Forall_forall. intros k Hk.
    apply dict_keys_update in Hk as [Hk|Hk].
    - rewrite Forall_forall in Hkeys. by apply Hkeys.
    - destruct (decide (k ∈ get_params (model s))) as [Hin|Hnot].
      + by apply (Hlaw _ (est_params (model s))).
      + assert (Hko : k ∈ offending s new_kwargs) by by apply offending_spec.
        rewrite Hoff in Hko. by apply elem_of_nil in Hko. }
  assert (Hinit : offending s new_kwargs = [] ->
            initialize_model (type s) (PyDict (dict_update (kwargs s) new_kwargs))
            = Returns {| est_class := est_class (model s);
                         est_params := dict_update (kwargs s) new_kwargs;
                         est_fitted := None |}).
  { intros Hoff. pose proof (initialize_model_class (type s)
                   (PyDict (dict_update (kwargs s) new_kwargs))) as Hi.
    rewrite Hcls in Hi. rewrite Hi. by apply new_estimator_returns, Hmerged. }
  split; [|split; [|split]]; [| | |exact Hinit];
    rewrite setup_eq; (destruct (offending s new_kwargs) as [|k0 ks] eqn:Hoff; [|done]);
    cbv zeta; simpl kwargs; rewrite (Hinit eq_refl);
    pose proof (estimator_fit_class
                  {| est_class := est_class (model s);
                     est_params := dict_update (kwargs s) new_kwargs;
                     est_fitted := None |} (x_train s) (y_train s) (w_rng w)) as [Hc Hp];
    destruct (estimator_fit _ _ _ _) as [[r m'] g]; simpl in Hc, Hp;
    (destruct r as [[]|e]; [destruct (estimator_predict _ _ _) as [[v|e] g']|]);
    simpl; rewrite ?Hc, ?Hp; auto.
Qed.

Lemma run_ops_keep_estimator (ops : list Op) (st : MlModel * World) :
  get_params_within_signature ->
  class_of_type (type st.1) = Some (est_class (model st.1)) ->
  est_params (model st.1) = kwargs st.1 ->
  Forall (fun k => k ∈ sk_init_params (est_class (model st.1))) (dict_keys (kwargs st.1)) ->
  let s' := (run_ops ops st).1 in
  class_of_type (type s') = Some (est_class (model s'))
  /\ est_params (model s') = kwargs s'
  /\ Forall (fun k => k ∈ sk_init_params (est_class (model s'))) (dict_keys (kwargs s')).
Proof.
  intros Hlaw. revert st. induction ops as [|op ops IH]; intros st Hcls Hpar Hkeys; [done|].
  change (run_ops (op :: ops) st) with (run_ops ops (run_op st op)).
  destruct st as [s w]. simpl in Hcls, Hpar, Hkeys.
  destruct op as [new_kwargs|data|args kw]; [|simpl run_op..].
  - destruct (run_op_setup (s, w) new_kwargs) as [-> | ->]; [|by apply IH].
    destruct (setup_keeps_estimator new_kwargs s w Hlaw Hcls Hpar Hkeys) as (H1 & H2 & H3 & _).
    by apply IH.
  - destruct (predict_frame data (s, w)) as ((_ & Hty & _) & _ & _ & Hkw & _).
    pose proof (predict_model data (s, w)) as Hm. simpl in *.
    apply IH; rewrite ?Hty, ?Hm, ?Hkw; done.
  - destruct (call_evaluate_model_frame args kw (s, w)) as ((_ & Hty & _) & _ & Hkw).
    pose proof (call_evaluate_model_model args kw (s, w)) as Hm. simpl in *.
    apply IH; rewrite ?Hty, ?Hm, ?Hkw; done.
Qed.

(** X8.  When [get_params] lists only constructor parameters, the guard
    of [setup] does its job for the whole life of an instance: after any
    calls, returning or raising, the hyperparameters the instance keeps
    are all parameters of its estimator's constructor, the estimator
    holds exactly those hyperparameters and is of the class the type
    names, and a [setup] whose keys pass the guard is never refused by
    the constructor. *)
Theorem hyperparameters_stay_accepted (path : string) (mt tgt feats ts : PyVal)
    (kw : dict) (w w' : World) (s : MlModel) (ops : list Op) :
  get_params_within_signature ->
  init path mt tgt feats ts kw w = (Returns s, w') ->
  let s' := (run_ops ops (s, w')).1 in
  class_of_type mt = Some (est_class (model s'))
  /\ est_params (model s') = kwargs s'
  /\ Forall (fun k => k ∈ sk_init_params (est_class (model s'))) (dict_keys (kwargs s'))
  /\ forall new_kwargs, offending s' new_kwargs = [] ->
       exists m, initialize_model (type s') (PyDict (dict_update (kwargs s') new_kwargs))
                 = Returns m.
Proof.
  intros Hlaw Hinit. cbv zeta.
  apply init_inv in Hinit as (d & df & sp & m & g & _ & _ & _ & _ & Hm & ->).
  pose proof (initialize_model_class mt (PyDict d)) as Hi.
  destruct (class_of_type mt) as [cls|] eqn:Hcls; [|congruence].
  rewrite Hm in Hi. pose proof (new_estimator_inv cls d) as Hn. rewrite <- Hi in Hn.
  destruct Hn as [-> Hkeys].
  match goal with |- context [run_ops ops ?st] => set (st0 := st) end.
  destruct (run_ops_keep_estimator ops st0 Hlaw) as (H1 & H2 & H3); [done..|].
  destruct (run_ops_frame ops st0) as ((_ & Hty & _) & _). simpl in Hty.
  split; [by rewrite <- Hcls, <- Hty|]. split; [done|]. split; [done|].
  intros new_kwargs Hoff.
  destruct (run_ops ops st0) as [s' w1]. simpl in *.
  destruct (setup_keeps_estimator new_kwargs s' w1 Hlaw H1 H2 H3) as (_ & _ & _ & Hinit).
  eexists. by apply Hinit.
Qed.

End EstimatorInvariant.

(** ** What [setup] refuses, and when *)

Section SetupRejection.
Context `{SK : Sklearn} `{ST : Storage}.

(** C1, as the code has it.  A call of [setup] that passes a positional
    argument or a keyword named [self] is refused by the call binding
    with a [TypeError], which names no other key.  Any other call whose
    keywords contain a key that [get_params] of the current estimator
    does not list raises the [ValueError] of the guard, whose message
    contains every such key.  When [get_params] lists constructor
    parameters only, that covers every key the constructor of the
    estimator's class does not accept.  In all these cases the instance
    and the world are what they were before the call: the keyword
    arguments kept by the instance, the estimator and the predictions
    are untouched.  A key that [get_params] lists and the constructor
    does not accept passes the guard: the call raises the [TypeError] of
    the constructor after the keyword arguments kept by the instance
    have been updated. *)
Theorem call_setup_rejects_unknown_keys (s : MlModel) (w : World) (new_kwargs : dict) :
  (forall a args, exists msg,
     call_setup (a :: args) new_kwargs (s, w) = (Raises (TypeError msg), (s, w)))
  /\ ("self" ∈ dict_keys new_kwargs ->
      call_setup [] new_kwargs (s, w)
      = (Raises (TypeError "setup() got multiple values for argument 'self'"), (s, w)))
  /\ ("self" ∉ dict_keys new_kwargs ->
      (exists k, k ∈ dict_keys new_kwargs /\ k ∉ get_params (model s)) ->
      exists msg,
        call_setup [] new_kwargs (s, w) = (Raises (ValueError msg), (s, w))
        /\ (forall k, k ∈ dict_keys new_kwargs -> k ∉ get_params (model s) ->
              mentions msg k))
  /\ (get_params_within_signature ->
      "self" ∉ dict_keys new_kwargs ->
      (exists k, k ∈ dict_keys new_kwargs /\ k ∉ sk_init_params (est_class (model s))) ->
      exists msg,
        call_setup [] new_kwargs (s, w) = (Raises (ValueError msg), (s, w))
        /\ (forall k, k ∈ dict_keys new_kwargs ->
              k ∉ sk_init_params (est_class (model s)) -> mentions msg k))
  /\ (forall cls,
      "self" ∉ dict_keys new_kwargs ->
      (forall k, k ∈ dict_keys new_kwargs -> k ∈ get_params (model s)) ->
      class_of_type (type s) = Some cls ->
      (exists k, k ∈ dict_keys new_kwargs /\ k ∉ sk_init_params cls) ->
      exists msg,
        call_setup [] new_kwargs (s, w)
        = (Raises (TypeError msg),
           (set_kwargs (dict_update (kwargs s) new_kwargs) s, w))).
Proof.
  split; [by eexists|]. split; [apply call_setup_self|]. split; [|split].
  - intros Hself Hbad. rewrite call_setup_keywords by done. by apply setup_guard.
  - intros Hlaw Hself (k0 & Hk0 & Hbad). rewrite call_setup_keywords by done.
    assert (Hsub : forall k, k ∉ sk_init_params (est_class (model s)) ->
                     k ∉ get_params (model s)).
    { intros k Hnot Hin. apply Hnot. by apply (Hlaw _ (est_params (model s))). }
    destruct (setup_guard s w new_kwargs) as (msg & Heq & Hm); [exists k0; auto|].
    exists msg. split; [done|]. intros k Hk Hnot. apply Hm; auto.
  - intros cls Hself Hpass Hcls (k0 & Hk0 & Hbad). rewrite call_setup_keywords by done.
    assert (Hoff : offending s new_kwargs = []).
    { destruct (offending s new_kwargs) as [|k ks] eqn:Ho; [done|].
      assert (Hk : k ∈ offending s new_kwargs) by (rewrite Ho; apply list_elem_of_here).
      apply offending_spec in Hk as [Hin Hnot]. by destruct (Hnot (Hpass k Hin)). }
    rewrite setup_eq, Hoff. cbv zeta. simpl kwargs.
    pose proof (initialize_model_class (type s)
                  (PyDict (dict_update (kwargs s) new_kwargs))) as Hi.
    rewrite Hcls in Hi. rewrite Hi.
    pose proof (new_estimator_inv cls (dict_update (kwargs s) new_kwargs)) as Hn.
    destruct (new_estimator cls _) as [m|e].
    + destruct Hn as [_ Hall]. rewrite Forall_forall in Hall.
      destruct Hbad. apply Hall, dict_keys_update. by right.
    + destruct Hn as (k & -> & _). by eexists.
Qed.

End SetupRejection.

(** C1 as stated fails: with the keywords [self] and [bogus_param],
    neither of them a parameter name, the call raises a [TypeError]
    whose message names [self] and not [bogus_param]. *)
Lemma call_setup_self_names_only_self :
  ("self" ∉ get_params (model Toy.fitted_model))
  /\ ("bogus_param" ∉ get_params (model Toy.fitted_model))
  /\ call_setup [] [("self", PyInt 1); ("bogus_param", PyInt 2)]
        (Toy.fitted_model, Toy.fitted_world)
     = (Raises (TypeError "setup() got multiple values for argument 'self'"),
        (Toy.fitted_model, Toy.fitted_world))
  /\ ~ mentions "setup() got multiple values for argument 'self'" "bogus_param".
Proof.
  split; [by apply str_in_false|]. split; [by apply str_in_false|]. split; [done|].
  intros Hm. by pose proof (mentions_has_char "b"%char _ _ Hm eq_refl).
Qed.

(** The rejection is not atomic for a key that [get_params] lists and
    the constructor refuses.  The instance is constructed with an
    estimator as [init]; [setup(init__strategy=...)] passes the guard,
    the constructor raises, and the keyword arguments kept by the
    instance have changed. *)
Lemma call_setup_nested_key_not_atomic :
  @init Toy.nested_sklearn Toy.storage "training.csv" (PyStr "GBM") (PyStr "label")
     Toy.features (PyFloat Toy.f0_2)
     [("kwargs", PyDict [("init", PyStr "DummyClassifier()")])] Toy.nested_world
  = (Returns Toy.nested_model, Toy.nested_world)
  /\ ("init__strategy" ∈ get_params (model Toy.nested_model))
  /\ ("init__strategy" ∉ Toy.nested_init_params GradientBoostingClassifier)
  /\ @call_setup Toy.nested_sklearn Toy.storage []
       [("init__strategy", PyStr "prior")] (Toy.nested_model, Toy.nested_world)
     = (Raises (TypeError "__init__() got an unexpected keyword argument 'init__strategy'"),
        (set_kwargs [("init", PyStr "DummyClassifier()"); ("init__strategy", PyStr "prior")]
           Toy.nested_model,
         Toy.nested_world)).
Proof.
  split; [by vm_compute|]. split; [by apply str_in_spec|].
  split; [by apply str_in_false|]. by vm_compute.
Qed.

Lemma call_setup_rejects_unknown_keys_witness :
  exists msg,
    call_setup [] [("bogus_param", PyInt 1); ("max_depth", PyInt 3)]
               (Toy.fitted_model, Toy.fitted_world)
    = (Raises (ValueError msg), (Toy.fitted_model, Toy.fitted_world))
    /\ mentions msg "bogus_param".
Proof.
  destruct (call_setup_rejects_unknown_keys Toy.fitted_model Toy.fitted_world
              [("bogus_param", PyInt 1); ("max_depth", PyInt 3)]) as (_ & _ & Hguard & _).
  destruct Hguard as (msg & Heq & Hm).
  - by apply str_in_false.
  - exists "bogus_param". split; [apply list_elem_of_here|]. by apply str_in_false.
  - exists msg. split; [exact Heq|]. apply Hm; [apply list_elem_of_here|].
    by apply str_in_false.
Defined.

(** ** What a reconfiguration leaves *)

Section SetupOutcome.
Context `{SK : Sklearn} `{ST : Storage}.

Lemma initialize_model_params (ty : PyVal) (d : dict) (m : Estimator) :
  initialize_model ty (PyDict d) = Returns m -> est_params m = d /\ est_fitted m = None.
Proof.
  intros Hm. pose proof (initialize_model_class ty (PyDict d)) as Hi.
  destruct (class_of_type ty) as [cls|]; [|congruence].
  rewrite Hm in Hi. pose proof (new_estimator_inv cls d) as Hn. rewrite <- Hi in Hn.
  by destruct Hn as [-> _].
Qed.

(** X9.  A [setup] that returns has merged its keyword arguments into
    the hyperparameters of the instance: keys it does not pass keep
    their value, keys it passes take the new one, and no key is lost.
    The instance now holds an estimator built from exactly the merged
    hyperparameters and fitted, and [y_pred] holds what that estimator
    predicts on the test split. *)
Theorem setup_returns_reconfigured (new_kwargs : dict) (s : MlModel) (w : World)
    (st' : MlModel * World) :
  setup new_kwargs (s, w) = (Returns tt, st') ->
  kwargs st'.1 = dict_update (kwargs s) new_kwargs
  /\ est_params (model st'.1) = kwargs st'.1
  /\ is_Some (est_fitted (model st'.1))
  /\ (exists v g, y_pred st'.1 = Some v
        /\ (estimator_predict (model st'.1) (Frame (x_test s)) g).1 = Returns v)
  /\ (forall k, k ∉ dict_keys new_kwargs ->
        dict_get k (kwargs st'.1) = dict_get k (kwargs s))
  /\ (NoDup (dict_keys new_kwargs) -> forall k v, (k, v) ∈ new_kwargs ->
        dict_get k (kwargs st'.1) = Some v)
  /\ (forall k, k ∈ dict_keys (kwargs s) -> k ∈ dict_keys (kwargs st'.1)).
Proof.
  rewrite setup_eq. destruct (offending s new_kwargs); [|discriminate]. cbv zeta.
  destruct (initialize_model _ _) as [m|e] eqn:Hm; [|discriminate].
  apply initialize_model_params in Hm as [Hpar _]. simpl in Hpar.
  unfold estimator_fit. destruct (sk_fit _ _ _ _ _) as [[f|e] g]; [|discriminate].
  destruct (estimator_predict _ _ _) as [[v|e] g'] eqn:Hp; [|discriminate].
  intros [= <-]. simpl. split; [done|]. split; [done|]. split; [by eexists|].
  split; [exists v, g; by rewrite Hp|].
  split; [intros k Hk; by apply dict_get_update_other|].
  split; [intros Hnd k v0 Hin; by apply dict_get_update_new|].
  intros k Hk. apply dict_keys_update. by left.
Qed.

(** X10.  A [setup] whose keys pass the guard and whose estimator is
    constructed, but whose [fit] raises, is not rolled back: the
    exception of [fit] leaves the call, the hyperparameters are already
    the merged ones and the instance already holds the new estimator,
    while [y_pred], the report and [last_prediction] are still those of
    the estimator before.  An [evaluate_model] after it reports the old
    predictions. *)
Theorem setup_fit_failure_is_kept (new_kwargs : dict) (s : MlModel) (w : World)
    (m : Estimator) (e : exn) (g : Rng) :
  offending s new_kwargs = [] ->
  initialize_model (type s) (PyDict (dict_update (kwargs s) new_kwargs)) = Returns m ->
  sk_fit (est_class m) (est_params m) (x_train s) (y_train s) (w_rng w) = (Raises e, g) ->
  let out := setup new_kwargs (s, w) in
  out.1 = Raises e
  /\ kwargs out.2.1 = dict_update (kwargs s) new_kwargs
  /\ est_class (model out.2.1) = est_class m
  /\ est_params (model out.2.1) = dict_update (kwargs s) new_kwargs
  /\ y_pred out.2.1 = y_pred s
  /\ report out.2.1 = report s
  /\ last_prediction out.2.1 = last_prediction s
  /\ forall plot v, y_pred s = Some v ->
       (evaluate_model plot out.2).1 = (report_of plot (y_test s) v).1.
Proof.
  intros Hoff Hm Hfit. cbv zeta. rewrite setup_eq, Hoff. cbv zeta. simpl kwargs.
  rewrite Hm. unfold estimator_fit. rewrite Hfit. simpl.
  destruct (initialize_model_params _ _ _ Hm) as [Hpar _].
  repeat (split; [done|]).
  intros plot v Hv.
  by destruct (evaluate_model_some_obs plot
                 (set_model m (set_kwargs (dict_update (kwargs s) new_kwargs) s))
                 (set_rng g w) v Hv) as (-> & _).
Qed.

End SetupOutcome.

(** ** Reports, warnings and the console *)

Section Reports.
Context `{SK : Sklearn} `{ST : Storage}.

Lemma warnings_of_app (evs1 evs2 : list Event) :
  warnings_of (evs1 ++ evs2) = warnings_of evs1 ++ warnings_of evs2.
Proof. apply omap_app. Qed.

Lemma warnings_of_report (plot : PyVal) (y_true v : Series) :
  warnings_of (report_of plot y_true v).2 = [].
Proof.
  unfold report_of. destruct (is_True plot); [|done].
  by destruct (classification_report_text _ _).
Qed.

Lemma evaluate_model_some_quiet (plot : PyVal) (s : MlModel) (w : World) (v : Series) :
  y_pred s = Some v ->
  y_pred (evaluate_model plot (s, w)).2.1 = Some v
  /\ warnings_of (w_out (evaluate_model plot (s, w)).2.2) = warnings_of (w_out w).
Proof.
  intros Hv. destruct (evaluate_model_some_obs plot s w v Hv) as (_ & -> & -> & _).
  split; [done|]. by rewrite warnings_of_app, warnings_of_report, app_nil_r.
Qed.

Lemma run_op_keeps_y_pred (st : MlModel * World) (op : Op) :
  is_Some (y_pred st.1) ->
  is_Some (y_pred (run_op st op).1)
  /\ warnings_of (w_out (run_op st op).2) = warnings_of (w_out st.2).
Proof.
  destruct st as [s w]. intros [v Hv]. simpl in Hv.
  destruct op as [new_kwargs|data|args kw]; [|simpl run_op..].
  - destruct (run_op_setup (s, w) new_kwargs) as [-> | ->]; [|split; [by eexists|done]].
    destruct (setup_frame new_kwargs (s, w)) as (_ & _ & -> & _). split; [|done].
    rewrite setup_eq. destruct (offending _ _); [|by eexists]. cbv zeta.
    destruct (initialize_model _ _); [|by eexists].
    destruct (estimator_fit _ _ _ _) as [[[[]|e] m'] g]; [|by eexists].
    by destruct (estimator_predict _ _ _) as [[v'|e] g']; eexists.
  - destruct (predict_frame data (s, w)) as (_ & _ & -> & _ & ->). split; [by eexists|done].
  - unfold call_evaluate_model. destruct args; [|split; [by eexists|done]].
    destruct (filter _ _); [|split; [by eexists|done]].
    destruct (evaluate_model_some_quiet (default (PyBool false) (dict_get "plot" kw)) s w v Hv)
      as [-> ->]. split; [by eexists|done].
Qed.

(** X11.  No method ever empties [y_pred]: once predictions on the test
    split are there, they are there after every later call, returning or
    raising, and [evaluate_model] never again falls back to predicting
    by itself, so the warning of the fallback is not emitted again. *)
Theorem y_pred_is_never_cleared (ops : list Op) (st : MlModel * World) :
  is_Some (y_pred st.1) ->
  is_Some (y_pred (run_ops ops st).1)
  /\ warnings_of (w_out (run_ops ops st).2) = warnings_of (w_out st.2).
Proof.
  revert st. induction ops as [|op ops IH]; intros st Hv; [done|].
  change (run_ops (op :: ops) st) with (run_ops ops (run_op st op)).
  destruct (run_op_keeps_y_pred st op Hv) as [Hv' Hw].
  destruct (IH _ Hv') as [Hv'' Hw']. split; [done|]. by rewrite Hw'.
Qed.

(** X12.  What [evaluate_model] returns is what it has stored in
    [report], and by then [y_pred] is set; when it raises, the report of
    an earlier evaluation is still there. *)
Theorem evaluate_model_stores_report (plot : PyVal) (st : MlModel * World) :
  (forall r, (evaluate_model plot st).1 = Returns r ->
     report (evaluate_model plot st).2.1 = Some r
     /\ is_Some (y_pred (evaluate_model plot st).2.1))
  /\ (forall e, (evaluate_model plot st).1 = Raises e ->
     report (evaluate_model plot st).2.1 = report st.1).
Proof.
  destruct st as [s w].
  assert (Hsome : forall s0 w0 v, y_pred s0 = Some v ->
            (forall r, (evaluate_model plot (s0, w0)).1 = Returns r ->
               report (evaluate_model plot (s0, w0)).2.1 = Some r
               /\ is_Some (y_pred (evaluate_model plot (s0, w0)).2.1))
            /\ (forall e, (evaluate_model plot (s0, w0)).1 = Raises e ->
               report (evaluate_model plot (s0, w0)).2.1 = report s0)).
  { intros s0 w0 v Hv. rewrite (evaluate_model_some _ _ _ v Hv).
    destruct (report_of _ _ _) as [[r|e] evs]; simpl; split; try discriminate.
    - intros r' [= <-]. split; [done|]. rewrite Hv. by eexists.
    - done. }
  destruct (y_pred s) as [v|] eqn:Hv; [by apply (Hsome s w v)|].
  rewrite (evaluate_model_none _ _ _ Hv). cbv zeta.
  destruct (estimator_predict _ _ _) as [[v|e] g]; [|by split].
  destruct (Hsome (set_y_pred (Some v) s)
              (set_rng g (emit (Warn "No data was loaded. Prediction will be done with test data.") w))
              v eq_refl) as [Hr He].
  split; [exact Hr | exact He].
Qed.

(** X13.  The flag changes neither the report nor the instance.  When
    [evaluate_model(plot=True)] returns a report,
    [evaluate_model(plot=False)] from the same state returns the same
    report, leaves the same instance, with the same predictions and the
    same stored report, and leaves the generator in the same state. *)
Theorem plot_only_prints (st : MlModel * World) (r : Report) :
  (evaluate_model (PyBool true) st).1 = Returns r ->
  (evaluate_model (PyBool false) st).1 = Returns r
  /\ (evaluate_model (PyBool true) st).2.1 = (evaluate_model (PyBool false) st).2.1
  /\ w_rng (evaluate_model (PyBool true) st).2.2
     = w_rng (evaluate_model (PyBool false) st).2.2.
Proof.
  destruct st as [s w].
  assert (Hsome : forall s0 w0 v, y_pred s0 = Some v ->
            (evaluate_model (PyBool true) (s0, w0)).1 = Returns r ->
            (evaluate_model (PyBool false) (s0, w0)).1 = Returns r
            /\ (evaluate_model (PyBool true) (s0, w0)).2.1
               = (evaluate_model (PyBool false) (s0, w0)).2.1
            /\ w_rng (evaluate_model (PyBool true) (s0, w0)).2.2
               = w_rng (evaluate_model (PyBool false) (s0, w0)).2.2).
  { intros s0 w0 v Hv. rewrite !(evaluate_model_some _ _ _ v Hv). unfold report_of. simpl.
    destruct (classification_report_text _ _) as [text|e]; [|discriminate].
    destruct (classification_report_dict _ _) as [r'|e]; [|discriminate]. simpl.
    by intros [= <-]. }
  destruct (y_pred s) as [v|] eqn:Hv; [by apply (Hsome s w v)|].
  rewrite !(evaluate_model_none _ _ _ Hv). cbv zeta.
  destruct (estimator_predict _ _ _) as [[v|e] g]; [|discriminate].
  by apply (Hsome _ _ v).
Qed.

(** X14.  When the estimator's [predict] is a function of the estimator
    and the data, a [predict] that raises has changed nothing in the
    instance: [last_prediction] still holds the vector of the last call
    that returned, and the exception is the one the estimator raised. *)
Theorem predict_raises_unchanged (data : Data) (s : MlModel) (w : World) (e : exn)
    (st' : MlModel * World) :
  predict_deterministic ->
  predict data (s, w) = (Raises e, st') ->
  st'.1 = s /\ (estimator_predict (model s) data (w_rng w)).1 = Raises e.
Proof.
  intros Hdet. rewrite predict_eq.
  destruct (estimator_predict (model s) data (w_rng w)) as [[v|e1] g] eqn:H1.
  - pose proof (Hdet (est_class (model s)) (est_params (model s)) (est_fitted (model s))
                  data (w_rng w) g) as Heq.
    unfold estimator_predict in *. rewrite H1 in Heq. simpl in Heq.
    destruct (sk_predict _ _ _ data g) as [r g']. simpl in Heq. subst r. discriminate.
  - by intros [= <- <-].
Qed.

End Reports.

(** ** The split as a partition *)

Lemma omap_lookup_seq_app {A} (pre l : list A) :
  omap (fun i => (pre ++ l) !! i) (seq (length pre) (length l)) = l.
Proof.
  revert pre. induction l as [|a l IH]; intros pre; [done|].
  simpl length. simpl seq. csimpl. rewrite list_lookup_middle by done. csimpl. f_equal.
  specialize (IH (pre ++ [a])). rewrite <- app_assoc in IH. simpl in IH.
  rewrite length_app in IH. simpl in IH. by rewrite Nat.add_1_r in IH.
Qed.

Lemma omap_lookup_seq {A} (l : list A) :
  omap (fun i => l !! i) (seq 0 (length l)) = l.
Proof. apply (omap_lookup_seq_app [] l). Qed.

Lemma zip_take_rows {A B} (xs : list A) (ys : list B) (idx : list nat) :
  length xs = length ys ->
  zip (omap (fun i => xs !! i) idx) (omap (fun i => ys !! i) idx)
  = omap (fun i => zip xs ys !! i) idx.
Proof.
  intros Hlen. induction idx as [|i idx IH]; [done|].
  csimpl. rewrite lookup_zip_with.
  destruct (xs !! i) as [a|] eqn:Hx, (ys !! i) as [b|] eqn:Hy; csimpl.
  - by rewrite IH.
  - apply lookup_lt_Some in Hx. apply lookup_ge_None in Hy. lia.
  - apply lookup_ge_None in Hx. apply lookup_lt_Some in Hy. lia.
  - done.
Qed.

Section Partition.
Context `{SK : Sklearn} `{ST : Storage}.

Lemma train_test_split_inv (x : DataFrame) (y : Series) (ts : float)
    (random_state : option Z) (g g' : Rng) (sp : Split) :
  train_test_split x y ts random_state g = (Returns sp, g') ->
  length y = length (rows x)
  /\ exists n_test,
       0 < n_test < Z.of_nat (length (rows x))
       /\ let perm := (rng_permutation (check_random_state random_state g)
                         (length (rows x))).1 in
          let ind_test := take (Z.to_nat n_test) perm in
          let ind_train := take (Z.to_nat (Z.of_nat (length (rows x)) - n_test))
                             (drop (Z.to_nat n_test) perm) in
          sp = {| sp_x_train := take_frame x ind_train; sp_x_test := take_frame x ind_test;
                  sp_y_train := take_series y ind_train;
                  sp_y_test := take_series y ind_test |}.
Proof.
  unfold train_test_split.
  destruct (Nat.eqb_spec (length y) (length (rows x))) as [Hlen|]; [|discriminate]. simpl.
  destruct (_ || _); [discriminate|].
  destruct (math_ceil _) as [n_test|]; [|discriminate].
  destruct (_ =? 0); [discriminate|].
  destruct (Z.leb_spec n_test 0); [discriminate|].
  destruct (Z.leb_spec (Z.of_nat (length (rows x))) n_test); [discriminate|]. simpl.
  destruct (_ || _); [discriminate|].
  destruct (rng_permutation _ _) as [perm rng']. intros [= <- _].
  split; [done|]. exists n_test. split; [lia|done].
Qed.

Lemma preprocess_data_inv (df : DataFrame) (feats tgt ts : PyVal) (g g' : Rng) (sp : Split) :
  preprocess_data df feats tgt ts g = (Returns sp, g') ->
  exists X Y x,
    getitem_frame df feats = Returns X /\ getitem_column df tgt = Returns Y
    /\ ts = PyFloat x /\ train_test_split X Y x (Some 42) g = (Returns sp, g').
Proof.
  unfold preprocess_data.
  destruct (getitem_frame _ _) as [X|]; [|discriminate].
  destruct (getitem_column _ _) as [Y|]; [|discriminate].
  destruct ts; try discriminate. intros H. by exists X, Y, x.
Qed.

(** X5.  The split of a constructed instance is a partition of the
    table: the labelled rows of the train part together with those of
    the test part are, up to order, the rows of the feature columns of
    the dataset, each with its own label.  No row is lost, none is used
    twice, features and labels stay aligned, both parts have the feature
    columns in the order asked for, and neither part is empty. *)
Theorem split_partitions_dataset (path : string) (mt tgt feats ts : PyVal) (kw : dict)
    (w w' : World) (s : MlModel) :
  permutation_valid ->
  init path mt tgt feats ts kw w = (Returns s, w') ->
  exists X Y,
    getitem_frame (dataset s) feats = Returns X
    /\ getitem_column (dataset s) tgt = Returns Y
    /\ labelled (x_train s) (y_train s) ++ labelled (x_test s) (y_test s) ≡ₚ labelled X Y
    /\ columns (x_train s) = columns X /\ columns (x_test s) = columns X
    /\ length (y_train s) = length (rows (x_train s))
    /\ length (y_test s) = length (rows (x_test s))
    /\ (0 < length (rows (x_train s)))%nat /\ (0 < length (rows (x_test s)))%nat.
Proof.
  intros Hperm Hinit.
  apply init_inv in Hinit as (d & df & sp & m & g & _ & _ & _ & Hsp & _ & ->).
  apply preprocess_data_inv in Hsp as (X & Y & x & HX & HY & -> & Hsp).
  apply train_test_split_inv in Hsp as (Hlen & n_test & Hrange & ->).
  exists X, Y. simpl. split; [done|]. split; [done|].
  destruct (permutation_bounded (seed_rng 42) (length (rows X)) Hperm) as [Hl Hb].
  pose proof (Hperm (seed_rng 42) (length (rows X))) as Hp.
  set (perm := (rng_permutation (seed_rng 42) (length (rows X))).1) in *.
  assert (Htrain : take (Z.to_nat (Z.of_nat (length (rows X)) - n_test))
                     (drop (Z.to_nat n_test) perm) = drop (Z.to_nat n_test) perm).
  { apply take_ge. rewrite length_drop, Hl. lia. }
  rewrite Htrain. unfold labelled, take_series. simpl.
  split; [|split; [done|split; [done|]]].
  - rewrite !zip_take_rows by done. rewrite <- omap_app.
    rewrite (Permutation_app_comm (drop _ perm) (take _ perm)), take_drop, Hp.
    replace (length (rows X)) with (length (zip (rows X) Y)).
    + by rewrite omap_lookup_seq.
    + rewrite length_zip_with. lia.
  - rewrite !length_take_rows; rewrite ?Hlen; eauto using Forall_take, Forall_drop.
    rewrite length_take, length_drop, Hl. lia.
Qed.

End Partition.

(** ** The class of the estimator, and the warning of the fallback *)

Section ClassAndWarning.
Context `{SK : Sklearn} `{ST : Storage}.

Lemma setup_keeps_class (new_kwargs : dict) (s : MlModel) (w : World) :
  class_of_type (type s) = Some (est_class (model s)) ->
  class_of_type (type (setup new_kwargs (s, w)).2.1)
  = Some (est_class (model (setup new_kwargs (s, w)).2.1)).
Proof.
  intros Hcls. rewrite setup_eq. destruct (offending _ _); [|done]. cbv zeta.
  pose proof (initialize_model_class (type s)
                (PyDict (kwargs (set_kwargs (dict_update (kwargs s) new_kwargs) s)))) as Hi.
  rewrite Hcls in Hi. destruct (initialize_model _ _) as [m|e]; [|done].
  pose proof (new_estimator_inv (est_class (model s))
                (kwargs (set_kwargs (dict_update (kwargs s) new_kwargs) s))) as Hn.
  rewrite <- Hi in Hn. destruct Hn as [-> _].
  match goal with |- context [estimator_fit ?m0 ?x ?y ?g] =>
    pose proof (estimator_fit_class m0 x y g) as [Hc _];
    destruct (estimator_fit m0 x y g) as [[r m'] g'] end.
  simpl in Hc. destruct r as [[]|e]; [|simpl; by rewrite Hc].
  destruct (estimator_predict _ _ _) as [[v|e] g'']; simpl; by rewrite Hc.
Qed.

Lemma run_ops_keep_class (ops : list Op) (st : MlModel * World) :
  class_of_type (type st.1) = Some (est_class (model st.1)) ->
  class_of_type (type (run_ops ops st).1) = Some (est_class (model (run_ops ops st).1)).
Proof.
  revert st. induction ops as [|op ops IH]; intros st Hcls; [done|].
  change (run_ops (op :: ops) st) with (run_ops ops (run_op st op)). apply IH.
  destruct st as [s w]. destruct op as [new_kwargs|data|args kw]; [|simpl run_op..].
  - destruct (run_op_setup (s, w) new_kwargs) as [-> | ->]; [|done].
    by apply setup_keeps_class.
  - destruct (predict_frame data (s, w)) as ((_ & -> & _) & _).
    by rewrite (predict_model data (s, w)).
  - destruct (call_evaluate_model_frame args kw (s, w)) as ((_ & -> & _) & _).
    by rewrite (call_evaluate_model_model args kw (s, w)).
Qed.

(** X7.  Reconfiguring never changes the kind of model: after any
    calls of [setup], [predict] and [evaluate_model], the estimator of
    the instance is of the class the model type of the construction
    names, whatever hyperparameters came in between. *)
Theorem estimator_class_is_fixed (path : string) (mt tgt feats ts : PyVal) (kw : dict)
    (w w' : World) (s : MlModel) (ops : list Op) :
  init path mt tgt feats ts kw w = (Returns s, w') ->
  class_of_type mt = Some (est_class (model (run_ops ops (s, w')).1))
  /\ est_class (model (run_ops ops (s, w')).1) = est_class (model s).
Proof.
  intros Hinit.
  apply init_inv in Hinit as (d & df & sp & m & g & _ & _ & _ & _ & Hm & ->).
  pose proof (initialize_model_class mt (PyDict d)) as Hi.
  destruct (class_of_type mt) as [cls|] eqn:Hcls; [|congruence].
  rewrite Hm in Hi. pose proof (new_estimator_inv cls d) as Hn. rewrite <- Hi in Hn.
  destruct Hn as [-> _].
  match goal with |- context [run_ops ops ?st] => set (st0 := st) end.
  pose proof (run_ops_keep_class ops st0 Hcls) as Hk.
  destruct (run_ops_frame ops st0) as ((_ & Hty & _) & _). rewrite Hty in Hk. simpl in Hk.
  rewrite Hcls in Hk. injection Hk as Hk. by rewrite <- Hk.
Qed.

(** [evaluate_model] with no predictions stored, on an estimator whose
    [predict] raises: the warning, then the exception of the estimator. *)
Lemma evaluate_model_raises (plot : PyVal) (s : MlModel) (w : World) :
  y_pred s = None ->
  (exists e, (estimator_predict (model s) (Frame (x_test s)) (w_rng w)).1 = Raises e) ->
  exists e g,
    evaluate_model plot (s, w)
    = (Raises e,
       (s, set_rng g (emit (Warn "No data was loaded. Prediction will be done with test data.") w)))
    /\ estimator_predict (model s) (Frame (x_test s)) (w_rng w) = (Raises e, g).
Proof.
  intros Hy [e He]. rewrite (evaluate_model_none _ _ _ Hy). cbv zeta.
  destruct (estimator_predict _ _ _) as [r g]. simpl in He. subst r. by exists e, g.
Qed.

Lemma estimator_predict_unfitted (m : Estimator) (data : Data) (g : Rng) :
  unfitted_predict_raises -> est_fitted m = None ->
  exists e, (estimator_predict m data g).1 = Raises e.
Proof. intros Hlaw Hnone. unfold estimator_predict. rewrite Hnone. apply Hlaw. Qed.

Lemma evaluate_model_unfitted (plot : PyVal) (s : MlModel) (w : World) :
  unfitted_predict_raises -> est_fitted (model s) = None -> y_pred s = None ->
  exists e g,
    evaluate_model plot (s, w)
    = (Raises e,
       (s, set_rng g (emit (Warn "No data was loaded. Prediction will be done with test data.") w)))
    /\ sk_predict (est_class (model s)) (est_params (model s)) None (Frame (x_test s)) (w_rng w)
       = (Raises e, g).
Proof.
  intros Hlaw Hnone Hy.
  destruct (evaluate_model_raises plot s w Hy) as (e & g & Heq & He).
  { by apply estimator_predict_unfitted. }
  unfold estimator_predict in He. rewrite Hnone in He. by exists e, g.
Qed.

Lemma evaluate_model_unfitted_repeat (n : nat) (s : MlModel) (w : World) :
  unfitted_predict_raises -> est_fitted (model s) = None -> y_pred s = None ->
  (run_ops (replicate n (OpEvaluateModel [] [])) (s, w)).1 = s
  /\ warnings_of (w_out (run_ops (replicate n (OpEvaluateModel [] [])) (s, w)).2)
     = warnings_of (w_out w)
       ++ replicate n "No data was loaded. Prediction will be done with test data.".
Proof.
  intros Hlaw Hnone Hy. revert w. induction n as [|n IH]; intros w.
  - simpl. by rewrite app_nil_r.
  - change (run_ops (replicate (S n) (OpEvaluateModel [] [])) (s, w))
      with (run_ops (replicate n (OpEvaluateModel [] []))
              (evaluate_model (PyBool false) (s, w)).2).
    destruct (evaluate_model_unfitted (PyBool false) s w Hlaw Hnone Hy) as (e & g & -> & _).
    simpl snd.
    destruct (IH (set_rng g (emit (Warn "No data was loaded. Prediction will be done with test data.") w)))
      as [-> ->].
    split; [done|]. simpl. rewrite warnings_of_app, <- app_assoc. done.
Qed.

(** X15.  On an instance that was constructed and never reconfigured,
    [evaluate_model()] warns on every call, not once: each of [n] calls
    in a row passes the message to [warnings.warn], the instance is
    after them what it was before, with no prediction and no report, and
    the next call raises again what the never-fitted estimator raises
    from [predict] on the test split: a [NotFittedError] when the
    estimator's class checks that it was fitted before it looks at the
    input. *)
Theorem evaluate_model_unfitted_warns_every_time (path : string)
    (mt tgt feats ts : PyVal) (kw : dict) (w w' : World) (s : MlModel) (n : nat) :
  unfitted_predict_raises ->
  init path mt tgt feats ts kw w = (Returns s, w') ->
  (run_ops (replicate n (OpEvaluateModel [] [])) (s, w')).1 = s
  /\ y_pred s = None /\ report s = None
  /\ warnings_of (w_out (run_ops (replicate n (OpEvaluateModel [] [])) (s, w')).2)
     = warnings_of (w_out w)
       ++ replicate n "No data was loaded. Prediction will be done with test data."
  /\ (exists e,
       (call_evaluate_model [] []
          (run_ops (replicate n (OpEvaluateModel [] [])) (s, w'))).1 = Raises e)
  /\ (checks_fitted_first (est_class (model s)) ->
      exists msg,
        (call_evaluate_model [] []
           (run_ops (replicate n (OpEvaluateModel [] [])) (s, w'))).1
        = Raises (NotFittedError msg)).
Proof.
  intros Hlaw Hinit.
  pose proof (init_world path mt tgt feats ts kw w) as Hw. rewrite Hinit in Hw.
  simpl in Hw. subst w'.
  apply init_returns in Hinit as (Hnone & Hy & Hr & _).
  destruct (evaluate_model_unfitted_repeat n s w Hlaw Hnone Hy) as [Hs Hwarn].
  split; [done|]. split; [done|]. split; [done|]. split; [done|].
  destruct (run_ops (replicate n (OpEvaluateModel [] [])) (s, w)) as [s' w1].
  simpl in Hs. subst s'.
  change (call_evaluate_model [] [] (s, w1)) with (evaluate_model (PyBool false) (s, w1)).
  destruct (evaluate_model_unfitted (PyBool false) s w1 Hlaw Hnone Hy) as (e & g & -> & He).
  split; [by exists e|]. intros Hfirst.
  destruct (Hfirst (est_params (model s)) (Frame (x_test s)) (w_rng w1)) as [msg Hmsg].
  rewrite He in Hmsg. simpl in Hmsg. injection Hmsg as ->. by exists msg.
Qed.

(** ** The fallback of [evaluate_model] is never completed *)

Lemma run_calls_unfitted_same (calls : list Call) (s : MlModel) (w : World) :
  unfitted_predict_raises -> est_fitted (model s) = None -> y_pred s = None ->
  (run_calls calls (s, w)).1 = s.
Proof.
  intros Hlaw Hnone Hy. revert w. induction calls as [|c calls IH]; intros w; [done|].
  change (run_calls (c :: calls) (s, w)) with (run_calls calls (run_call (s, w) c)).
  destruct c as [data|args kw]; simpl run_call.
  - destruct (predict_unfitted data s w Hlaw Hnone) as (e & g & -> & _). apply IH.
  - unfold call_evaluate_model. destruct args; [|apply IH].
    destruct (filter _ _); [|apply IH].
    destruct (evaluate_model_unfitted (default (PyBool false) (dict_get "plot" kw)) s w
                Hlaw Hnone Hy) as (e & g & -> & _).
    apply IH.
Qed.

Lemma setup_fallback_raises (new_kwargs : dict) (st : MlModel * World) :
  unfitted_predict_raises -> predict_deterministic ->
  fallback_raises st -> fallback_raises (setup new_kwargs st).2.
Proof.
  intros Hlaw Hdet Hinv. destruct st as [s w]. unfold fallback_raises in *.
  rewrite setup_eq. destruct (offending _ _); [|done]. cbv zeta.
  destruct (initialize_model _ _) as [m|e] eqn:Hm; [|done].
  apply initialize_model_unfitted in Hm.
  unfold estimator_fit. destruct (sk_fit _ _ _ _ _) as [[f|e] g].
  - match goal with |- context [estimator_predict ?m0 ?d g] =>
      pose proof (fun g2 => estimator_predict_deterministic m0 d g2 g Hdet) as Hsame;
      destruct (estimator_predict m0 d g) as [[v|e] g'] end; [done|].
    simpl. intros _ g2. exists e. by rewrite Hsame.
  - simpl. intros _ g2. by apply estimator_predict_unfitted.
Qed.

Lemma evaluate_model_fallback_raises (plot : PyVal) (st : MlModel * World) :
  fallback_raises st -> fallback_raises (evaluate_model plot st).2.
Proof.
  intros Hinv. destruct st as [s w]. unfold fallback_raises in *. simpl in Hinv.
  destruct (y_pred s) as [v|] eqn:Hv.
  - destruct (evaluate_model_some_obs plot s w v Hv) as (_ & Hy & _).
    intros Hnone. congruence.
  - destruct (evaluate_model_raises plot s w Hv (Hinv eq_refl (w_rng w)))
      as (e & g & -> & _).
    simpl. by rewrite Hv.
Qed.

Lemma run_ops_fallback_raises (ops : list Op) (st : MlModel * World) :
  unfitted_predict_raises -> predict_deterministic ->
  fallback_raises st -> fallback_raises (run_ops ops st).
Proof.
  intros Hlaw Hdet. revert st. induction ops as [|op ops IH]; intros st Hinv; [done|].
  change (run_ops (op :: ops) st) with (run_ops ops (run_op st op)). apply IH.
  destruct op as [new_kwargs|data|args kw]; [|simpl run_op..].
  - destruct (run_op_setup st new_kwargs) as [-> | ->]; [|done].
    by apply setup_fallback_raises.
  - unfold fallback_raises in *.
    destruct (predict_frame data st) as ((_ & _ & _ & _ & _ & _ & _ & Hx & _) & _ & _ & _ & Hy).
    by rewrite Hy, Hx, predict_model.
  - unfold call_evaluate_model. destruct args; [|done]. destruct (filter _ _); [|done].
    by apply evaluate_model_fallback_raises.
Qed.

(** C7, as the code has it.  The fallback of [evaluate_model] announces
    a prediction on the test data and never completes it.  On an
    instance built by [__init__], after any calls of [predict] and
    [evaluate_model], [y_pred] is still empty and the instance is the
    one the constructor built; [evaluate_model], with any flag, emits
    the warning and then raises what the never-fitted estimator raises
    from [predict]; no report is returned and nothing is stored.  With
    calls of [setup] in between, and an estimator whose [predict] is a
    function of the estimator and the data, the same holds whenever
    [y_pred] is empty at the call: the only state in which
    [evaluate_model] returns a report is one where [setup] has already
    stored the predictions.  With predictions stored, the estimator is
    not consulted: the report is computed from them against [y_test] of
    the construction, and they stay as they are. *)
Theorem evaluate_model_fallback_never_returns (path : string) (mt tgt feats ts : PyVal)
    (kw : dict) (w w' : World) (s : MlModel) (plot : PyVal) :
  unfitted_predict_raises ->
  init path mt tgt feats ts kw w = (Returns s, w') ->
  let warning := Warn "No data was loaded. Prediction will be done with test data." in
  (forall calls,
     let st := run_calls calls (s, w') in
     st.1 = s /\ y_pred st.1 = None
     /\ exists e g, evaluate_model plot st = (Raises e, (s, set_rng g (emit warning st.2))))
  /\ (predict_deterministic -> forall ops,
     let st := run_ops ops (s, w') in
     (y_pred st.1 = None ->
      exists e g, evaluate_model plot st = (Raises e, (st.1, set_rng g (emit warning st.2))))
     /\ (forall r, (evaluate_model plot st).1 = Returns r -> is_Some (y_pred st.1)))
  /\ (forall ops v,
     let st := run_ops ops (s, w') in
     y_pred st.1 = Some v ->
     (evaluate_model plot st).1 = (report_of plot (y_test s) v).1
     /\ y_pred (evaluate_model plot st).2.1 = Some v
     /\ w_rng (evaluate_model plot st).2.2 = w_rng st.2).
Proof.
  intros Hlaw Hinit. cbv zeta.
  apply init_returns in Hinit as (Hnone & Hy & _).
  split; [|split].
  - intros calls. pose proof (run_calls_unfitted_same calls s w' Hlaw Hnone Hy) as Hs.
    destruct (run_calls calls (s, w')) as [s1 w1]. simpl in Hs. subst s1. simpl.
    split; [done|]. split; [done|].
    destruct (evaluate_model_unfitted plot s w1 Hlaw Hnone Hy) as (e & g & -> & _).
    by exists e, g.
  - intros Hdet ops.
    assert (Hinv : fallback_raises (run_ops ops (s, w'))).
    { apply run_ops_fallback_raises; [done..|].
      intros _ g. by apply estimator_predict_unfitted. }
    destruct (run_ops ops (s, w')) as [s1 w1]. unfold fallback_raises in Hinv. simpl in *.
    assert (Hraise : y_pred s1 = None ->
              exists e g, evaluate_model plot (s1, w1)
                = (Raises e, (s1, set_rng g (emit (Warn "No data was loaded. Prediction will be done with test data.") w1)))).
    { intros Hy1.
      destruct (evaluate_model_raises plot s1 w1 Hy1 (Hinv Hy1 (w_rng w1)))
        as (e & g & Heq & _).
      by exists e, g. }
    split; [exact Hraise|].
    intros r Hr. destruct (y_pred s1) as [v|] eqn:Hy1; [by eexists|].
    destruct (Hraise eq_refl) as (e & g & Heq). rewrite Heq in Hr. discriminate.
  - intros ops v.
    destruct (run_ops_frame ops (s, w')) as ((_ & _ & _ & _ & _ & _ & _ & _ & _ & Hyt) & _).
    destruct (run_ops ops (s, w')) as [s1 w1]. simpl in *. intros Hv.
    destruct (evaluate_model_some_obs plot s1 w1 v Hv) as (Hr & Hp & _ & Hg).
    by rewrite Hr, Hyt.
Qed.

End ClassAndWarning.

(** ** Reconfiguring again, and the scenario of the tests *)

Lemma dict_set_same (k : string) (v : PyVal) (d : dict) :
  dict_get k d = Some v -> dict_set k v d = d.
Proof.
  induction d as [|[k0 v0] d IH]; [done|]. simpl.
  destruct (String.eqb_spec k k0) as [->|Hne]; [by intros [= ->]|].
  intros H. by rewrite IH.
Qed.

Lemma dict_update_same (d other : dict) :
  (forall k v, (k, v) ∈ other -> dict_get k d = Some v) -> dict_update d other = d.
Proof.
  unfold dict_update. induction other as [|[k0 v0] other IH]; intros H; [done|].
  simpl. rewrite dict_set_same by (apply H, list_elem_of_here).
  apply IH. intros k v Hin. by apply H, list_elem_of_further.
Qed.

Section Again.
Context `{SK : Sklearn} `{ST : Storage}.

Lemma setup_kwargs (new_kwargs : dict) (s : MlModel) (w : World) :
  kwargs (setup new_kwargs (s, w)).2.1 = kwargs s
  \/ kwargs (setup new_kwargs (s, w)).2.1 = dict_update (kwargs s) new_kwargs.
Proof.
  rewrite setup_eq. destruct (offending _ _); [|by left]. cbv zeta. right.
  destruct (initialize_model _ _); [|done].
  destruct (estimator_fit _ _ _ _) as [[[[]|e] m'] g]; [|done].
  by destruct (estimator_predict _ _ _) as [[v|e] g'].
Qed.

(** X17.  [setup()] with no keyword argument is never stopped by the
    guard and changes no hyperparameter, whether it returns or raises;
    when it returns, the instance holds a fitted estimator built from
    the hyperparameters it already had.  It is how an instance is fitted
    with the hyperparameters of its construction. *)
Theorem setup_without_arguments (s : MlModel) (w : World) :
  offending s [] = []
  /\ kwargs (setup [] (s, w)).2.1 = kwargs s
  /\ (forall st', setup [] (s, w) = (Returns tt, st') ->
       est_params (model st'.1) = kwargs s /\ is_Some (est_fitted (model st'.1))
       /\ is_Some (y_pred st'.1)).
Proof.
  split; [done|]. split; [by destruct (setup_kwargs [] s w)|].
  rewrite setup_eq. change (offending s []) with (@nil string). cbv zeta.
  destruct (initialize_model _ _) as [m|e] eqn:Hm; [|discriminate].
  apply initialize_model_params in Hm as [Hpar _].
  unfold estimator_fit. destruct (sk_fit _ _ _ _ _) as [[f|e] g]; [|discriminate].
  destruct (estimator_predict _ _ _) as [[v|e] g']; [|discriminate].
  intros st' [= <-]. simpl. split; [done|]. split; by eexists.
Qed.

(** X18.  Reconfiguring twice with the same keyword arguments changes
    the hyperparameters once: after a [setup] that returned, the same
    [setup] again, returning or raising, leaves the hyperparameters as
    the first left them. *)
Theorem setup_twice_same_kwargs (new_kwargs : dict) (st st1 : MlModel * World) :
  NoDup (dict_keys new_kwargs) ->
  setup new_kwargs st = (Returns tt, st1) ->
  kwargs (setup new_kwargs st1).2.1 = kwargs st1.1.
Proof.
  intros Hnd Hsetup. destruct st as [s w], st1 as [s1 w1].
  assert (Hk : kwargs s1 = dict_update (kwargs s) new_kwargs).
  { revert Hsetup. rewrite setup_eq. destruct (offending _ _); [|discriminate]. cbv zeta.
    destruct (initialize_model _ _); [|discriminate].
    destruct (estimator_fit _ _ _ _) as [[[[]|e] m'] g]; [|discriminate].
    destruct (estimator_predict _ _ _) as [[v|e] g']; [|discriminate].
    by intros [= <- _]. }
  destruct (setup_kwargs new_kwargs s1 w1) as [->| ->]; [done|]. simpl.
  apply dict_update_same. intros k v Hin. rewrite Hk. by apply dict_get_update_new.
Qed.

(** X16.  The scenario of the tests: an instance is constructed,
    [setup] returns on it, and [evaluate_model()] is called.  The call
    answers the report of the predictions [setup] stored against
    [y_test] of the construction, and when it returns, the attribute
    [report] holds what it returned, so it is not [None]. *)
Theorem evaluate_model_after_setup (path : string) (mt tgt feats ts : PyVal)
    (kw new_kwargs : dict) (w w0 : World) (s0 : MlModel) (st1 : MlModel * World) :
  init path mt tgt feats ts kw w = (Returns s0, w0) ->
  setup new_kwargs (s0, w0) = (Returns tt, st1) ->
  exists v,
    y_pred st1.1 = Some v
    /\ (call_evaluate_model [] [] st1).1 = classification_report_dict (y_test s0) v
    /\ (forall r, (call_evaluate_model [] [] st1).1 = Returns r ->
          report (call_evaluate_model [] [] st1).2.1 = Some r).
Proof.
  intros Hinit Hsetup.
  destruct (setup_returns_y_pred new_kwargs (s0, w0) st1 Hsetup) as (v & g & Hv & Ht & _).
  simpl in Ht. destruct st1 as [s1 w1]. simpl in *.
  exists v. split; [done|].
  change (call_evaluate_model [] [] (s1, w1)) with (evaluate_model (PyBool false) (s1, w1)).
  rewrite (evaluate_model_some _ _ _ v Hv). unfold report_of. simpl. rewrite Ht.
  destruct (classification_report_dict (y_test s0) v) as [r|e]; simpl.
  - split; [done|]. by intros r' [= <-].
  - split; [done|]. discriminate.
Qed.

End Again.

(** ** The further properties on the small world *)

Lemma toy_get_params_within_signature : @get_params_within_signature Toy.sklearn.
Proof. by intros cls d k. Qed.

Lemma split_partitions_dataset_witness :
  exists X Y,
    getitem_frame (dataset Toy.fresh_model) Toy.features = Returns X
    /\ getitem_column (dataset Toy.fresh_model) (PyStr "label") = Returns Y
    /\ labelled (x_train Toy.fresh_model) (y_train Toy.fresh_model)
       ++ labelled (x_test Toy.fresh_model) (y_test Toy.fresh_model) ≡ₚ labelled X Y.
Proof.
  destruct (split_partitions_dataset "training.csv" (PyStr "RandomForest") (PyStr "label")
              Toy.features (PyFloat Toy.f0_2) [("kwargs", PyDict [])] (Toy.world 0)
              (Toy.world 0) Toy.fresh_model toy_permutation_valid toy_fresh)
    as (X & Y & HX & HY & Hp & _).
  by exists X, Y.
Defined.

Lemma split_is_fixed_witness :
  (evaluate_model (PyBool false)
     (run_ops [OpPredict Toy.new_rows; OpSetup [("bogus_param", PyInt 1)]]
        (Toy.fitted_model, Toy.fitted_world))).1
  = (report_of (PyBool false) (y_test Toy.fitted_model) [PyInt 1]).1.
Proof.
  apply (proj2 (split_is_fixed [OpPredict Toy.new_rows; OpSetup [("bogus_param", PyInt 1)]]
                  (Toy.fitted_model, Toy.fitted_world))).
  reflexivity.
Defined.

Lemma estimator_class_is_fixed_witness :
  est_class (model (run_ops [OpSetup [("max_depth", PyInt 3)]; OpPredict Toy.new_rows]
                      (Toy.fresh_model, Toy.world 0)).1)
  = est_class (model Toy.fresh_model).
Proof.
  apply (estimator_class_is_fixed "training.csv" (PyStr "RandomForest") (PyStr "label")
           Toy.features (PyFloat Toy.f0_2) [("kwargs", PyDict [])] (Toy.world 0)
           (Toy.world 0) Toy.fresh_model
           [OpSetup [("max_depth", PyInt 3)]; OpPredict Toy.new_rows] toy_fresh).
Defined.

Lemma hyperparameters_stay_accepted_witness :
  est_params (model (run_ops [OpSetup [("max_depth", PyInt 3)];
                              OpSetup [("n_estimators", PyInt 10)]]
                       (Toy.fresh_model, Toy.world 0)).1)
  = kwargs (run_ops [OpSetup [("max_depth", PyInt 3)];
                     OpSetup [("n_estimators", PyInt 10)]]
              (Toy.fresh_model, Toy.world 0)).1.
Proof.
  apply (hyperparameters_stay_accepted "training.csv" (PyStr "RandomForest") (PyStr "label")
           Toy.features (PyFloat Toy.f0_2) [("kwargs", PyDict [])] (Toy.world 0)
           (Toy.world 0) Toy.fresh_model
           [OpSetup [("max_depth", PyInt 3)]; OpSetup [("n_estimators", PyInt 10)]]
           toy_get_params_within_signature toy_fresh).
Defined.

Lemma setup_returns_reconfigured_witness :
  kwargs Toy.fitted_model
  = dict_update (kwargs Toy.fresh_model)
      [("n_estimators", PyInt 100); ("max_depth", PyInt 10)]
  /\ dict_get "max_depth" (kwargs Toy.fitted_model) = Some (PyInt 10).
Proof.
  destruct (setup_returns_reconfigured
              [("n_estimators", PyInt 100); ("max_depth", PyInt 10)]
              Toy.fresh_model (Toy.world 0) (Toy.fitted_model, Toy.fitted_world)
              toy_configured) as (Hk & _ & _ & _ & _ & Hnew & _).
  split; [exact Hk|]. apply Hnew.
  - apply (bool_decide_unpack _). by vm_compute.
  - apply list_elem_of_further, list_elem_of_here.
Defined.

Lemma setup_fit_failure_is_kept_witness :
  (setup [("max_depth", PyInt 3)] (Toy.featureless_model, Toy.world 0)).1
  = Raises (ValueError "at least one array or dtype is required")
  /\ kwargs (setup [("max_depth", PyInt 3)] (Toy.featureless_model, Toy.world 0)).2.1
     = [("max_depth", PyInt 3)].
Proof.
  destruct (setup_fit_failure_is_kept [("max_depth", PyInt 3)] Toy.featureless_model
              (Toy.world 0)
              {| est_class := RandomForestClassifier; est_params := [("max_depth", PyInt 3)];
                 est_fitted := None |}
              (ValueError "at least one array or dtype is required") 0%nat
              eq_refl eq_refl eq_refl) as (Hr & Hk & _).
  split; [exact Hr | exact Hk].
Defined.

Lemma y_pred_is_never_cleared_witness :
  is_Some (y_pred (run_ops [OpSetup [("bogus_param", PyInt 1)]; OpEvaluateModel [] [];
                            OpPredict Toy.new_rows]
                     (Toy.fitted_model, Toy.fitted_world)).1).
Proof.
  apply (y_pred_is_never_cleared
           [OpSetup [("bogus_param", PyInt 1)]; OpEvaluateModel [] []; OpPredict Toy.new_rows]
           (Toy.fitted_model, Toy.fitted_world)).
  by eexists.
Defined.

Lemma evaluate_model_stores_report_witness :
  report (evaluate_model (PyBool false) (Toy.fitted_model, Toy.fitted_world)).2.1
  = Some [(PyInt 0, PyInt 1)].
Proof.
  apply (proj1 (evaluate_model_stores_report (PyBool false)
                  (Toy.fitted_model, Toy.fitted_world)) [(PyInt 0, PyInt 1)]).
  reflexivity.
Defined.

Lemma plot_only_prints_witness :
  (evaluate_model (PyBool false) (Toy.fitted_model, Toy.fitted_world)).1
  = Returns [(PyInt 0, PyInt 1)].
Proof.
  apply (plot_only_prints (Toy.fitted_model, Toy.fitted_world) [(PyInt 0, PyInt 1)]).
  reflexivity.
Defined.

Lemma predict_raises_unchanged_witness :
  (predict (Value (PyStr "prediction_cropped.nc")) (Toy.fitted_model, Toy.fitted_world)).2.1
  = Toy.fitted_model.
Proof.
  apply (predict_raises_unchanged (Value (PyStr "prediction_cropped.nc")) Toy.fitted_model
           Toy.fitted_world (ValueError "Expected 2D array")
           (predict (Value (PyStr "prediction_cropped.nc"))
              (Toy.fitted_model, Toy.fitted_world)).2
           toy_predict_deterministic).
  reflexivity.
Defined.

Lemma evaluate_model_unfitted_warns_every_time_witness :
  warnings_of (w_out (run_ops (replicate 3 (OpEvaluateModel [] []))
                        (Toy.fresh_model, Toy.world 0)).2)
  = warnings_of (w_out (Toy.world 0))
    ++ replicate 3 "No data was loaded. Prediction will be done with test data.".
Proof.
  destruct (evaluate_model_unfitted_warns_every_time "training.csv" (PyStr "RandomForest")
              (PyStr "label") Toy.features (PyFloat Toy.f0_2) [("kwargs", PyDict [])]
              (Toy.world 0) (Toy.world 0) Toy.fresh_model 3
              toy_unfitted_predict_raises toy_fresh) as (_ & _ & _ & Hwarn & _).
  exact Hwarn.
Defined.

Lemma setup_without_arguments_witness :
  is_Some (est_fitted (model (setup [] (Toy.fresh_model, Toy.world 0)).2.1)).
Proof.
  apply (proj2 (proj2 (setup_without_arguments Toy.fresh_model (Toy.world 0)))
           (setup [] (Toy.fresh_model, Toy.world 0)).2).
  reflexivity.
Defined.

Lemma setup_twice_same_kwargs_witness :
  kwargs (setup [("n_estimators", PyInt 100); ("max_depth", PyInt 10)]
            (Toy.fitted_model, Toy.fitted_world)).2.1
  = kwargs Toy.fitted_model.
Proof.
  apply (setup_twice_same_kwargs [("n_estimators", PyInt 100); ("max_depth", PyInt 10)]
           (Toy.fresh_model, Toy.world 0) (Toy.fitted_model, Toy.fitted_world)).
  - apply (bool_decide_unpack _). by vm_compute.
  - exact toy_configured.
Defined.

Lemma evaluate_model_after_setup_witness :
  exists v,
    y_pred Toy.fitted_model = Some v
    /\ (call_evaluate_model [] [] (Toy.fitted_model, Toy.fitted_world)).1
       = classification_report_dict (y_test Toy.fresh_model) v.
Proof.
  destruct (evaluate_model_after_setup "training.csv" (PyStr "RandomForest") (PyStr "label")
              Toy.features (PyFloat Toy.f0_2) [("kwargs", PyDict [])]
              [("n_estimators", PyInt 100); ("max_depth", PyInt 10)]
              (Toy.world 0) (Toy.world 0) Toy.fresh_model
              (Toy.fitted_model, Toy.fitted_world) toy_fresh toy_configured)
    as (v & Hv & Hr & _).
  by exists v.
Defined.

Lemma evaluate_model_fallback_never_returns_witness :
  y_pred (run_calls [CallPredict Toy.new_rows; CallEvaluateModel [] []]
            (Toy.fresh_model, Toy.world 0)).1 = None
  /\ exists e g,
       evaluate_model (PyBool true)
         (run_calls [CallPredict Toy.new_rows; CallEvaluateModel [] []]
            (Toy.fresh_model, Toy.world 0))
       = (Raises e,
          (Toy.fresh_model,
           set_rng g
             (emit (Warn "No data was loaded. Prediction will be done with test data.")
                (run_calls [CallPredict Toy.new_rows; CallEvaluateModel [] []]
                   (Toy.fresh_model, Toy.world 0)).2))).
Proof.
  destruct (evaluate_model_fallback_never_returns "training.csv" (PyStr "RandomForest")
              (PyStr "label") Toy.features (PyFloat Toy.f0_2) [("kwargs", PyDict [])]
              (Toy.world 0) (Toy.world 0) Toy.fresh_model (PyBool true)
              toy_unfitted_predict_raises toy_fresh) as (Hcalls & _ & _).
  destruct (Hcalls [CallPredict Toy.new_rows; CallEvaluateModel [] []]) as (_ & Hy & He).
  split; [exact Hy | exact He].
Defined.
